(** * JETI telemetry log parser: a shallow embedding of [JETI_Log_Parser.py]

    The development follows the class [JetiTelemetryParser]: the two passes
    [_parse_devices] and [_parse_entries] over the lines of a log, the two
    dictionaries they share ([devices] and [device_id_to_name]), and the
    Python built-ins they call ([str.splitlines], [str.split],
    [str.startswith], [str.strip], [int], [/] and [**]).

    Modelling choices.
    - Text is a [string] whose characters are the code points 0..255.
    - Python integers are [Z].
    - A Python float is a [spec_float] of the binary64 format.
    - A dictionary is a [gmap]; the insertion order of a dictionary is not
      observed by the parser and is not represented.
    - An exception is an explicit outcome that carries the parser object as
      it was left when the exception was raised, since both passes mutate
      the object in place. *)

From Stdlib Require Import ZArith String Ascii List Bool Lia.
From Stdlib Require Import SpecFloat.
From stdpp Require Import gmap strings list fin_maps.

Local Open Scope string_scope.

(** ** Characters and strings *)

Module Text.

Definition code (c : ascii) : N := N_of_ascii c.

Definition between (lo hi n : N) : bool := ((lo <=? n) && (n <=? hi))%N.

(** [str.isspace] on a single character, as used by [str.strip]. *)
Definition isspace (c : ascii) : bool :=
  let n := code c in
  between 9 13 n || between 28 32 n || (n =? 133)%N || (n =? 160)%N.

(** The white space that [int] skips around a literal: the C-locale
    white space, and the two spaces above 127, which [int] first rewrites
    to a blank. The separators 28..31 are not skipped. *)
Definition int_space (c : ascii) : bool :=
  let n := code c in
  between 9 13 n || (n =? 32)%N || (n =? 133)%N || (n =? 160)%N.

(** The characters at which [str.splitlines] ends a line. *)
Definition is_linebreak (c : ascii) : bool :=
  let n := code c in
  between 10 13 n || between 28 30 n || (n =? 133)%N.

Definition digit_value (c : ascii) : option Z :=
  let n := code c in
  if between 48 57 n then Some (Z.of_N n - 48)%Z else None.

(** [s.startswith(p)] *)
Fixpoint startswith (p s : string) : bool :=
  match p, s with
  | EmptyString, _ => true
  | String a p', String b s' => if Ascii.eqb a b then startswith p' s' else false
  | String _ _, EmptyString => false
  end.

(** [s.split(sep)] for a separator of one character: never empty. *)
Fixpoint split (sep : ascii) (s : string) : list string :=
  match s with
  | EmptyString => [EmptyString]
  | String c s' =>
      if Ascii.eqb c sep then EmptyString :: split sep s'
      else match split sep s' with
           | h :: t => String c h :: t
           | [] => [String c EmptyString]
           end
  end.

Fixpoint lstrip (s : string) : string :=
  match s with
  | String c s' => if isspace c then lstrip s' else s
  | EmptyString => EmptyString
  end.

Fixpoint rstrip (s : string) : string :=
  match s with
  | String c s' =>
      match rstrip s' with
      | EmptyString => if isspace c then EmptyString else String c EmptyString
      | r => String c r
      end
  | EmptyString => EmptyString
  end.

(** [s.strip()] *)
Definition strip (s : string) : string := rstrip (lstrip s).

(** [s.splitlines()]: [cur] holds the characters of the line being read
    and [open] tells whether a line has been started.
    A carriage return directly followed by a line feed ends one line. *)
Fixpoint splitlines_from (cur : string) (open : bool) (s : string) : list string :=
  match s with
  | EmptyString => if open then [cur] else []
  | String c s' =>
      if is_linebreak c then
        let rest :=
          match s' with
          | String d s'' =>
              if (code c =? 13)%N && (code d =? 10)%N then s'' else s'
          | EmptyString => s'
          end in
        cur :: splitlines_from EmptyString false rest
      else splitlines_from (cur ++ String c EmptyString) true s'
  end.

(** [s.splitlines()] *)
Definition splitlines (s : string) : list string :=
  splitlines_from EmptyString false s.

End Text.

(** ** Exceptions *)

Inductive exn : Set :=
  | ValueError
  | IndexError
  | KeyError
  | OverflowError
  | ZeroDivisionError.

#[global] Instance exn_eq_dec : EqDecision exn.
Proof. solve_decision. Defined.

(** ** The built-in [int] on strings *)

Module PyInt.
Import Text.

(** The interpreter's default limit on the number of digits of a decimal
    literal converted by [int]. *)
Definition int_max_str_digits : nat := 4300.

Fixpoint skip_space (s : string) : string :=
  match s with
  | String c s' => if int_space c then skip_space s' else s
  | EmptyString => EmptyString
  end.

Fixpoint all_space (s : string) : bool :=
  match s with
  | String c s' => int_space c && all_space s'
  | EmptyString => true
  end.

Definition is_underscore (c : ascii) : bool := (code c =? 95)%N.

(** Digits after the first one. One underscore may stand between two
    digits. Returns the value, the number of digits and what follows. *)
Fixpoint scan_digits (s : string) (acc : Z) (count : nat)
  : option (Z * nat * string) :=
  match s with
  | EmptyString => Some (acc, count, s)
  | String c s' =>
      match digit_value c with
      | Some d => scan_digits s' (acc * 10 + d)%Z (S count)
      | None =>
          if is_underscore c then
            match s' with
            | String c' s'' =>
                match digit_value c' with
                | Some d => scan_digits s'' (acc * 10 + d)%Z (S count)
                | None => None
                end
            | EmptyString => None
            end
          else Some (acc, count, s)
      end
  end.

Definition scan_literal (s : string) : option (Z * nat * string) :=
  match s with
  | String c s' =>
      match digit_value c with
      | Some d => scan_digits s' d 1
      | None => None
      end
  | EmptyString => None
  end.

Definition split_sign (s : string) : bool * string :=
  match s with
  | String c s' =>
      if (code c =? 43)%N then (false, s')
      else if (code c =? 45)%N then (true, s')
      else (false, s)
  | EmptyString => (false, s)
  end.

(** [int(s)] in base ten; [None] stands for [ValueError]. *)
Definition int (s : string) : option Z :=
  let '(neg, body) := split_sign (skip_space s) in
  match scan_literal body with
  | Some (v, n, rest) =>
      if all_space rest && (n <=? int_max_str_digits)%nat
      then Some (if neg then - v else v)%Z
      else None
  | None => None
  end.

End PyInt.

(** ** Floating point: [/] and [**] *)

Module PyFloat.

Definition prec : Z := 53.
Definition emax : Z := 1024.

Abbreviation float := spec_float.

(** An integer as an exact, unrounded operand. *)
Definition exact (z : Z) : float :=
  match z with
  | Z0 => S754_zero false
  | Zpos p => S754_finite false p 0
  | Zneg p => S754_finite true p 0
  end.

Definition is_zero (f : float) : bool :=
  match f with S754_zero _ => true | _ => false end.

Definition is_finite (f : float) : bool :=
  match f with S754_zero _ | S754_finite _ _ _ => true | _ => false end.

(** [float(z)]: round to nearest, ties to even; too large raises. *)
Definition of_int (z : Z) : exn + float :=
  let f := binary_normalize prec emax z 0 false in
  if is_finite f then inr f else inl OverflowError.

(** [a / b] on two integers: the quotient of the two integers rounded
    once, to nearest with ties to even. *)
Definition int_truediv (a b : Z) : exn + float :=
  if (b =? 0)%Z then inl ZeroDivisionError
  else
    let q := SFdiv prec emax (exact a) (exact b) in
    if is_finite q then inr q else inl OverflowError.

(** [a / f] on an integer and a float: the integer is converted first. *)
Definition float_rtruediv (a : Z) (f : float) : exn + float :=
  match of_int a with
  | inl e => inl e
  | inr x => if is_zero f then inl ZeroDivisionError
             else inr (SFdiv prec emax x f)
  end.

(** The result of [10 ** d]: an integer when [d] is not negative, a float
    otherwise. *)
Inductive power : Type :=
  | IntPower (p : Z)
  | FloatPower (f : float).

(** [10 ** d]. With a negative exponent both operands are converted to
    floats and the platform's [pow] is called; it is taken here to return
    the correctly rounded value of [1 / 10 ^ (- d)]. *)
Definition pow10 (d : Z) : exn + power :=
  if (0 <=? d)%Z then inr (IntPower (10 ^ d))
  else
    match of_int d with
    | inl e => inl e
    | inr _ => inr (FloatPower (SFdiv prec emax (exact 1) (exact (10 ^ (- d)))))
    end.

(** [raw_value / (10 ** decimal_places)] *)
Definition scale (raw_value decimal_places : Z) : exn + float :=
  match pow10 decimal_places with
  | inl e => inl e
  | inr (IntPower p) => int_truediv raw_value p
  | inr (FloatPower f) => float_rtruediv raw_value f
  end.

End PyFloat.

(** ** The parser object and its effects *)

Import PyFloat(float).

(** [{"name": ..., "unit": ...}] *)
Record ChannelDescriptor : Type := {
  ch_name : string;
  ch_unit : option string
}.

(** One row of a series: [(timestamp, final_value)]. *)
Definition sample : Type := Z * float.

(** [{"channels": {...}, "data": {...}}] *)
Record Device : Type := {
  channels : gmap Z ChannelDescriptor;
  data : gmap Z (list sample)
}.

(** The attributes of a [JetiTelemetryParser] instance. *)
Record JetiTelemetryParser : Type := {
  raw_data : string;
  devices : gmap string Device;
  device_id_to_name : gmap Z string
}.

(** [JetiTelemetryParser(log_data)] *)
Definition __init__ (log_data : string) : JetiTelemetryParser :=
  {| raw_data := log_data; devices := ∅; device_id_to_name := ∅ |}.

(** What a method call leaves behind: a result, or an exception, and in
    both cases the object as mutated so far. *)
Inductive outcome (A : Type) : Type :=
  | Ret (a : A) (self : JetiTelemetryParser)
  | Raise (e : exn) (self : JetiTelemetryParser).
Arguments Ret {A} a self.
Arguments Raise {A} e self.

Definition M (A : Type) : Type := JetiTelemetryParser → outcome A.

#[global] Instance M_ret : MRet M := λ A a self, Ret a self.
#[global] Instance M_bind : MBind M := λ A B f m self,
  match m self with
  | Ret a self' => f a self'
  | Raise e self' => Raise e self'
  end.

Definition raise {A} (e : exn) : M A := λ self, Raise e self.
Definition get : M JetiTelemetryParser := λ self, Ret self self.
Definition put (self' : JetiTelemetryParser) : M unit := λ _, Ret tt self'.

Definition lift {A} (r : exn + A) : M A :=
  match r with
  | inl e => raise e
  | inr a => mret a
  end.

(** [int(s)] *)
Definition int (s : string) : M Z :=
  match PyInt.int s with
  | Some z => mret z
  | None => raise ValueError
  end.

(** [l[i]] for an index that is not negative *)
Definition index (l : list string) (i : nat) : M string :=
  match l !! i with
  | Some x => mret x
  | None => raise IndexError
  end.

(** [for x in l: body(x)] *)
Fixpoint for_each {A} (l : list A) (body : A → M unit) : M unit :=
  match l with
  | [] => mret tt
  | x :: l' => body x ;; for_each l' body
  end.

(** [bool(s)] on a string *)
Definition truthy (s : string) : bool := negb (String.eqb s "").

(** [self.devices[device_name]] *)
Definition device_at (device_name : string) : M Device :=
  self ← get;
  match devices self !! device_name with
  | Some dev => mret dev
  | None => raise KeyError
  end.

Definition set_device (device_name : string) (dev : Device) : M unit :=
  self ← get;
  put {| raw_data := raw_data self;
         devices := <[device_name := dev]> (devices self);
         device_id_to_name := device_id_to_name self |}.

(** [self.device_id_to_name[device_id] = device_name] *)
Definition set_device_name (device_id : Z) (device_name : string) : M unit :=
  self ← get;
  put {| raw_data := raw_data self;
         devices := devices self;
         device_id_to_name := <[device_id := device_name]> (device_id_to_name self) |}.

(** [self.devices[device_name]["channels"][channel_id] = desc] *)
Definition set_channel (device_name : string) (channel_id : Z)
    (desc : ChannelDescriptor) : M unit :=
  dev ← device_at device_name;
  set_device device_name
    {| channels := <[channel_id := desc]> (channels dev); data := data dev |}.

(** [self.devices[device_name]["data"][channel_id] = points] *)
Definition set_data (device_name : string) (channel_id : Z)
    (points : list sample) : M unit :=
  dev ← device_at device_name;
  set_device device_name
    {| channels := channels dev; data := <[channel_id := points]> (data dev) |}.

(** [self.devices[device_name]["data"][channel_id].append(point)] *)
Definition append_data (device_name : string) (channel_id : Z)
    (point : sample) : M unit :=
  dev ← device_at device_name;
  match data dev !! channel_id with
  | Some points =>
      set_device device_name
        {| channels := channels dev;
           data := <[channel_id := (points ++ [point])%list]> (data dev) |}
  | None => raise KeyError
  end.

(** ** The two passes *)

(** The marker in the first field of a metadata line. *)
Definition marker : string := "000000000".

(** The body of the loop of [_parse_devices]. *)
Definition parse_device_line (line : string) : M unit :=
  if Text.startswith "#" line then mret tt
  else
    let parts := Text.split ";" line in
    if (length parts <? 4)%nat then mret tt
    else
      p0 ← index parts 0;
      if negb (String.eqb p0 marker) then mret tt
      else
        p1 ← index parts 1;
        device_id ← int p1;
        p2 ← index parts 2;
        channel_id ← int p2;
        p3 ← index parts 3;
        let channel_name := Text.strip p3 in
        unit ← (if (4 <? length parts)%nat
                then p4 ← index parts 4; mret (Some (Text.strip p4))
                else mret None);
        if (channel_id =? 0)%Z then
          let device_name := channel_name in
          set_device_name device_id device_name;;
          self ← get;
          match devices self !! device_name with
          | Some _ => mret tt
          | None => set_device device_name {| channels := ∅; data := ∅ |}
          end
        else
          self ← get;
          match device_id_to_name self !! device_id with
          | Some device_name =>
              if truthy device_name then
                set_channel device_name channel_id
                  {| ch_name := channel_name; ch_unit := unit |};;
                set_data device_name channel_id []
              else mret tt
          | None => mret tt
          end.

(** [_parse_devices(lines)] *)
Definition _parse_devices (lines : list string) : M unit :=
  for_each lines parse_device_line.

(** [range(0, stop, 4)] *)
Definition range_by_4 (stop : nat) : list nat :=
  (λ k, 4 * k)%nat <$> seq 0 ((stop + 3) `div` 4)%nat.

(** The body of the inner loop of [_parse_entries]. *)
Definition parse_stride (timestamp device_id : Z) (channel_data : list string)
    (i : nat) : M unit :=
  c0 ← index channel_data i;
  channel_id ← int c0;
  c2 ← index channel_data (i + 2);
  decimal_places ← int c2;
  c3 ← index channel_data (i + 3);
  raw_value ← int c3;
  final_value ← lift (PyFloat.scale raw_value decimal_places);
  self ← get;
  match device_id_to_name self !! device_id with
  | Some device_name =>
      if truthy device_name then
        dev ← device_at device_name;
        match data dev !! channel_id with
        | Some _ => append_data device_name channel_id (timestamp, final_value)
        | None => mret tt
        end
      else mret tt
  | None => mret tt
  end.

(** The body of the outer loop of [_parse_entries]. *)
Definition parse_entry_line (line : string) : M unit :=
  if Text.startswith "#" line || Text.startswith marker line then mret tt
  else
    let parts := Text.split ";" line in
    if (length parts <? 6)%nat then mret tt
    else
      p0 ← index parts 0;
      timestamp ← int p0;
      p1 ← index parts 1;
      device_id ← int p1;
      let channel_data := drop 2 parts in
      for_each (range_by_4 (length channel_data))
        (parse_stride timestamp device_id channel_data).

(** [np.array(data_points)]: the array is represented by the rows it is
    built from, in their order. *)
Definition np_array (data_points : list sample) : list sample := data_points.

(** The closing loop of [_parse_entries], over every channel of every
    device. *)
Definition convert_series : M unit :=
  self ← get;
  put {| raw_data := raw_data self;
         devices := (λ dev, {| channels := channels dev;
                               data := np_array <$> data dev |})
                    <$> devices self;
         device_id_to_name := device_id_to_name self |}.

(** [_parse_entries(lines)] *)
Definition _parse_entries (lines : list string) : M unit :=
  for_each lines parse_entry_line;;
  convert_series.

(** [parse()] *)
Definition parse : M unit :=
  self ← get;
  let lines := Text.splitlines (raw_data self) in
  _parse_devices lines;;
  _parse_entries lines.


(** The object after an outcome, and the exception if there is one. *)
Definition final {A} (o : outcome A) : JetiTelemetryParser :=
  match o with Ret _ self | Raise _ self => self end.

Definition raised {A} (o : outcome A) : option exn :=
  match o with Ret _ _ => None | Raise e _ => Some e end.

(** Create a parser for a log and run [parse]. *)
Definition run (log_data : string) : outcome unit := parse (__init__ log_data).

(** ** Reading a stride without the parser object

    The first half of the inner loop body converts three fields and scales
    the raw value; it does not touch the parser object. [decode_stride]
    names that half, and [store] names the second half, the resolution of
    the device and the channel. *)

Definition decode_stride (channel_data : list string) (i : nat)
  : exn + (Z * float) :=
  match channel_data !! i with
  | None => inl IndexError
  | Some c0 =>
      match PyInt.int c0 with
      | None => inl ValueError
      | Some channel_id =>
          match channel_data !! (i + 2)%nat with
          | None => inl IndexError
          | Some c2 =>
              match PyInt.int c2 with
              | None => inl ValueError
              | Some decimal_places =>
                  match channel_data !! (i + 3)%nat with
                  | None => inl IndexError
                  | Some c3 =>
                      match PyInt.int c3 with
                      | None => inl ValueError
                      | Some raw_value =>
                          match PyFloat.scale raw_value decimal_places with
                          | inl e => inl e
                          | inr v => inr (channel_id, v)
                          end
                      end
                  end
              end
          end
      end
  end.

(** The series of a channel of a device, when both exist. *)
Definition series (self : JetiTelemetryParser) (device_name : string)
    (channel_id : Z) : option (list sample) :=
  dev ← devices self !! device_name; data dev !! channel_id.

(** The name under which a registry knows a device id, unless it is
    missing or empty. *)
Definition resolve_in (registry : gmap Z string) (device_id : Z)
  : option string :=
  match registry !! device_id with
  | Some device_name => if truthy device_name then Some device_name else None
  | None => None
  end.

(** The device name a device id resolves to in the decoder. *)
Definition resolve_device (self : JetiTelemetryParser) (device_id : Z)
  : option string :=
  resolve_in (device_id_to_name self) device_id.

(** The object after one point has been appended to an existing series. *)
Definition appended (self : JetiTelemetryParser) (device_name : string)
    (dev : Device) (channel_id : Z) (points : list sample) (point : sample)
  : JetiTelemetryParser :=
  {| raw_data := raw_data self;
     devices := <[device_name :=
                   {| channels := channels dev;
                      data := <[channel_id := (points ++ [point])%list]> (data dev) |}]>
                (devices self);
     device_id_to_name := device_id_to_name self |}.

Definition store (timestamp device_id channel_id : Z) (final_value : float)
    (self : JetiTelemetryParser) : outcome unit :=
  match resolve_device self device_id with
  | None => Ret tt self
  | Some device_name =>
      match devices self !! device_name with
      | None => Raise KeyError self
      | Some dev =>
          match data dev !! channel_id with
          | None => Ret tt self
          | Some points =>
              Ret tt (appended self device_name dev channel_id points
                        (timestamp, final_value))
          end
      end
  end.

(** Every name in the registry names a device. *)
Definition registry_closed (self : JetiTelemetryParser) : Prop :=
  map_Forall (λ _ device_name, is_Some (devices self !! device_name))
             (device_id_to_name self).

(** ** What the lines of a log say

    The definitions below read a log without running the parser. They are
    the vocabulary in which the properties of the two passes are stated. *)

(** [int] raises on this field. *)
Definition int_fails (s : string) : bool :=
  match PyInt.int s with
  | Some _ => false
  | None => true
  end.

(** There is a [j]-th field and [int] raises on it. *)
Definition field_fails (fields : list string) (j : nat) : bool :=
  match fields !! j with
  | Some f => int_fails f
  | None => false
  end.

(** The line is classified as metadata by the first pass. *)
Definition is_metadata_line (line : string) : bool :=
  let parts := Text.split ";" line in
  negb (Text.startswith "#" line)
  && (4 <=? length parts)%nat
  && match parts !! 0%nat with
     | Some p0 => String.eqb p0 marker
     | None => false
     end.

(** The line gets past both guards of the second pass. *)
Definition is_data_line (line : string) : bool :=
  negb (Text.startswith "#" line || Text.startswith marker line)
  && (6 <=? length (Text.split ";" line))%nat.

(** A metadata line whose device id or channel id is not an integer. *)
Definition metadata_int_fails (line : string) : bool :=
  let parts := Text.split ";" line in
  is_metadata_line line && (field_fails parts 1 || field_fails parts 2).

(** A stride one of whose three converted fields is not an integer. *)
Definition stride_int_fails (channel_data : list string) (i : nat) : bool :=
  field_fails channel_data i
  || field_fails channel_data (i + 2)
  || field_fails channel_data (i + 3).

(** A data line whose timestamp, device id, or a converted field of one of
    its strides is not an integer. *)
Definition entry_int_fails (line : string) : bool :=
  let parts := Text.split ";" line in
  let channel_data := drop 2 parts in
  is_data_line line
  && (field_fails parts 0 || field_fails parts 1
      || existsb (stride_int_fails channel_data)
           (range_by_4 (length channel_data))).

(** A sample as a data line carries it: device id, channel id, point. *)
Definition carried : Type := Z * Z * sample.



(** A carried sample is valid for a channel of a device when its device id
    resolves to the device in the registry and its channel id is the
    channel's. *)
Definition valid_for (registry : gmap Z string) (device_name : string)
    (channel_id : Z) (c : carried) : Prop :=
  resolve_in registry c.1.1 = Some device_name ∧ c.1.2 = channel_id.

#[global] Instance valid_for_dec registry device_name channel_id c :
  Decision (valid_for registry device_name channel_id c).
Proof. unfold valid_for. apply _. Defined.



(** The first exception that decoding the strides of a line raises. *)
Fixpoint first_decode_error (channel_data : list string) (l : list nat)
  : option exn :=
  match l with
  | [] => None
  | i :: l' =>
      match decode_stride channel_data i with
      | inl e => Some e
      | inr _ => first_decode_error channel_data l'
      end
  end.

(** What a metadata line declares. *)
Inductive declaration : Type :=
  | DeviceName (device_id : Z) (device_name : string)
  | Channel (device_id channel_id : Z) (desc : ChannelDescriptor).

Definition declaration_of (line : string) : option declaration :=
  if is_metadata_line line then
    let parts := Text.split ";" line in
    match parts !! 1%nat ≫= PyInt.int, parts !! 2%nat ≫= PyInt.int,
          parts !! 3%nat with
    | Some device_id, Some channel_id, Some p3 =>
        if (channel_id =? 0)%Z then Some (DeviceName device_id (Text.strip p3))
        else Some (Channel device_id channel_id
                     {| ch_name := Text.strip p3;
                        ch_unit := Text.strip <$> parts !! 4%nat |})
    | _, _, _ => None
    end
  else None.

(** The effect of a declaration on the parser object: the body of the
    first loop once the line has been classified and its fields converted. *)
Definition declare (d : declaration) (self : JetiTelemetryParser)
  : outcome unit :=
  match d with
  | DeviceName device_id device_name =>
      Ret tt
        {| raw_data := raw_data self;
           devices :=
             match devices self !! device_name with
             | Some _ => devices self
             | None => <[device_name := {| channels := ∅; data := ∅ |}]>
                         (devices self)
             end;
           device_id_to_name :=
             <[device_id := device_name]> (device_id_to_name self) |}
  | Channel device_id channel_id desc =>
      match resolve_device self device_id with
      | None => Ret tt self
      | Some device_name =>
          match devices self !! device_name with
          | None => Raise KeyError self
          | Some dev =>
              Ret tt
                {| raw_data := raw_data self;
                   devices :=
                     <[device_name :=
                        {| channels := <[channel_id := desc]> (channels dev);
                           data := <[channel_id := []]> (data dev) |}]>
                     (devices self);
                   device_id_to_name := device_id_to_name self |}
          end
      end
  end.

(** The device names declared by a sequence of declarations. *)
Definition names_declared (decls : list declaration) : list string :=
  omap (λ d, match d with
             | DeviceName _ device_name => Some device_name
             | Channel _ _ _ => None
             end) decls.

(** The channel declarations that belong to a device name, in log order.
    A channel declaration belongs to the name its device id has in the
    registry when the declaration is read. *)
Fixpoint channels_declared (registry : gmap Z string)
    (decls : list declaration) (device_name : string)
  : list (Z * ChannelDescriptor) :=
  match decls with
  | [] => []
  | DeviceName device_id n :: decls' =>
      channels_declared (<[device_id := n]> registry) decls' device_name
  | Channel device_id channel_id desc :: decls' =>
      if decide (resolve_in registry device_id = Some device_name)
      then (channel_id, desc) :: channels_declared registry decls' device_name
      else channels_declared registry decls' device_name
  end.

(** The registry after a sequence of declarations. *)
Fixpoint registry_after (registry : gmap Z string) (decls : list declaration)
  : gmap Z string :=
  match decls with
  | [] => registry
  | DeviceName device_id n :: decls' =>
      registry_after (<[device_id := n]> registry) decls'
  | Channel _ _ _ :: decls' => registry_after registry decls'
  end.

(** The descriptor of the last declaration of a channel id in a list. *)
Fixpoint last_descriptor (channel_id : Z) (l : list (Z * ChannelDescriptor))
  : option ChannelDescriptor :=
  match l with
  | [] => None
  | (c, d) :: l' =>
      match last_descriptor channel_id l' with
      | Some d' => Some d'
      | None => if (c =? channel_id)%Z then Some d else None
      end
  end.

(** The merge of a list of channel declarations into a channel map. *)
Definition merge_channels (m : gmap Z ChannelDescriptor)
    (l : list (Z * ChannelDescriptor)) : gmap Z ChannelDescriptor :=
  foldl (λ acc p, <[p.1 := p.2]> acc) m l.

(** The object with a device id removed from the registry. *)
Definition forget (device_id : Z) (self : JetiTelemetryParser)
  : JetiTelemetryParser :=
  {| raw_data := raw_data self;
     devices := devices self;
     device_id_to_name := delete device_id (device_id_to_name self) |}.

(** Every channel that has a series has a descriptor, and conversely. *)
Definition data_described (self : JetiTelemetryParser) : Prop :=
  map_Forall (λ _ dev, dom (data dev) = dom (channels dev)) (devices self).

(** What the second pass may change: nothing but the contents of series
    that exist. *)
Definition same_shape (self self' : JetiTelemetryParser) : Prop :=
  raw_data self' = raw_data self
  ∧ device_id_to_name self' = device_id_to_name self
  ∧ ∀ device_name,
      match devices self !! device_name, devices self' !! device_name with
      | Some dev, Some dev' =>
          channels dev' = channels dev ∧ dom (data dev') = dom (data dev)
      | None, None => True
      | _, _ => False
      end.

(** All series are empty, as the first pass leaves them. *)
Definition series_empty (self : JetiTelemetryParser) : Prop :=
  map_Forall (λ _ dev, map_Forall (λ _ points, points = []) (data dev))
             (devices self).

(** What the first pass maintains. *)
Definition well_formed (self : JetiTelemetryParser) : Prop :=
  registry_closed self ∧ data_described self ∧ series_empty self.

(** The binary64 number [f] is a closest one to the fraction [num / den]:
    it is in the format and at most half a unit in the last place away. *)
Definition nearest (f : float) (num den : Z) : bool :=
  match f with
  | S754_finite s m e =>
      let sm := if s then Z.neg m else Z.pos m in
      bounded PyFloat.prec PyFloat.emax m e
      && if (0 <=? e)%Z
         then (Z.abs (2 * (sm * 2 ^ e * den - num)) <=? 2 ^ e * den)%Z
         else (Z.abs (2 * (sm * den - num * 2 ^ (- e))) <=? den)%Z
  | _ => false
  end.

(** The binary64 number [f] is exactly the fraction [num / den]. *)
Definition represents (f : float) (num den : Z) : bool :=
  match f with
  | S754_finite s m e =>
      let sm := if s then Z.neg m else Z.pos m in
      bounded PyFloat.prec PyFloat.emax m e
      && if (0 <=? e)%Z
         then (sm * 2 ^ e * den =? num)%Z
         else (sm * den =? num * 2 ^ (- e))%Z
  | _ => false
  end.

(** ** Sample logs *)

(** The text of a log from its lines, each ended by a line feed. *)
Definition unlines (lines : list string) : string :=
  String.concat "" ((λ l, l ++ String "010"%char "") <$> lines).

(** A device named MHB under id 7 with one channel, 15. *)
Definition mhb_header : list string :=
  ["000000000;7;0;MHB"; "000000000;7;15;Altitude;m"].

(** The parser object after the header alone has been parsed. *)
Definition mhb_parser : JetiTelemetryParser := final (run (unlines mhb_header)).

(** ** What a whole log says

    More vocabulary, for the properties of a whole parse. *)

(** The declarations of the metadata lines of a log, in log order. *)
Definition declarations (lines : list string) : list declaration :=
  omap declaration_of lines.

(** The names that the device-name declarations give to a device id, in log
    order. *)
Definition names_for (device_id : Z) (decls : list declaration) : list string :=
  omap (λ d, match d with
             | DeviceName i device_name =>
                 if decide (i = device_id) then Some device_name else None
             | Channel _ _ _ => None
             end) decls.

(** The exception that a line raises in the second pass, read off the line
    alone. *)
Definition entry_error (line : string) : option exn :=
  if is_data_line line then
    let parts := Text.split ";" line in
    let channel_data := drop 2 parts in
    match parts !! 0%nat ≫= PyInt.int, parts !! 1%nat ≫= PyInt.int with
    | Some _, Some _ =>
        first_decode_error channel_data (range_by_4 (length channel_data))
    | _, _ => Some ValueError
    end
  else None.

(** The exception that ends the parse of the lines of a log, read off the
    lines alone: a metadata line with a field that is not an integer, anywhere
    in the log, comes before every data line. *)
Definition parse_error (lines : list string) : option exn :=
  if existsb metadata_int_fails lines then Some ValueError
  else head (omap entry_error lines).

(** The lines that the first pass reads as metadata, and the lines that the
    second pass decodes. *)
Definition metadata_lines (lines : list string) : list string :=
  filter (λ line, is_metadata_line line = true) lines.

Definition data_lines (lines : list string) : list string :=
  filter (λ line, is_data_line line = true) lines.

(** The object with another raw text. *)
Definition with_raw_data (raw : string) (self : JetiTelemetryParser)
  : JetiTelemetryParser :=
  {| raw_data := raw;
     devices := devices self;
     device_id_to_name := device_id_to_name self |}.

Definition outcome_map {A} (f : JetiTelemetryParser → JetiTelemetryParser)
    (o : outcome A) : outcome A :=
  match o with
  | Ret a self => Ret a (f self)
  | Raise e self => Raise e (f self)
  end.

(** The first and the last character of a string. *)
Definition first_char (s : string) : option ascii :=
  match s with
  | String c _ => Some c
  | EmptyString => None
  end.

Fixpoint last_char (s : string) : option ascii :=
  match s with
  | EmptyString => None
  | String c s' =>
      match s' with
      | EmptyString => Some c
      | String _ _ => last_char s'
      end
  end.

(** The string neither starts nor ends with white space. *)
Definition trimmed (s : string) : bool :=
  match first_char s, last_char s with
  | Some a, Some b => negb (Text.isspace a) && negb (Text.isspace b)
  | _, _ => true
  end.

(** The names held by a descriptor are trimmed. *)
Definition descriptor_trimmed (desc : ChannelDescriptor) : Prop :=
  trimmed (ch_name desc) = true
  ∧ from_option trimmed true (ch_unit desc) = true.

(** Every name held by the parser object is trimmed: the keys of [devices],
    the names and units of the channel descriptors, and the names in the
    registry. *)
Definition names_trimmed (self : JetiTelemetryParser) : Prop :=
  map_Forall (λ device_name dev,
                trimmed device_name = true
                ∧ map_Forall (λ _ desc, descriptor_trimmed desc) (channels dev))
             (devices self)
  ∧ map_Forall (λ _ device_name, trimmed device_name = true)
               (device_id_to_name self).

(** The device under the empty name, if there is one, has no channel. *)
Definition unnamed_device_empty (self : JetiTelemetryParser) : Prop :=
  match devices self !! "" with
  | Some dev => channels dev = ∅ ∧ data dev = ∅
  | None => True
  end.

(** Line feed, and carriage return followed by line feed. *)
Definition LF : string := String "010"%char "".
Definition CRLF : string := String "013"%char (String "010"%char "").

(** The text of a log from its lines, each ended by [eol]. *)
Definition join_lines (eol : string) (lines : list string) : string :=
  foldr (λ line rest, line ++ eol ++ rest) "" lines.

(** No character of the string ends a line. *)
Fixpoint linebreak_free (s : string) : bool :=
  match s with
  | EmptyString => true
  | String c s' => negb (Text.is_linebreak c) && linebreak_free s'
  end.







(** ** Laws of the effects *)

Section Effects.

Lemma bind_unfold {A B} (m : M A) (f : A → M B) self :
  (m ≫= f) self =
  match m self with
  | Ret a self' => f a self'
  | Raise e self' => Raise e self'
  end.
Proof. reflexivity. Qed.

Lemma for_each_cons {A} (x : A) l body self :
  for_each (x :: l) body self =
  match body x self with
  | Ret _ self' => for_each l body self'
  | Raise e self' => Raise e self'
  end.
Proof. reflexivity. Qed.

Lemma for_each_app {A} (l1 l2 : list A) body self :
  for_each (l1 ++ l2) body self =
  match for_each l1 body self with
  | Ret _ self' => for_each l2 body self'
  | Raise e self' => Raise e self'
  end.
Proof.
  revert self. induction l1 as [|x l1 IH]; intros self; [done|].
  rewrite <- app_comm_cons, !for_each_cons.
  destruct (body x self); [apply IH | done].
Qed.

(** A loop whose body preserves a property of the object preserves it,
    whether it ends normally or by an exception. *)
Lemma for_each_final {A} (P : JetiTelemetryParser → Prop) (l : list A) body :
  (∀ x self, P self → P (final (body x self))) →
  ∀ self, P self → P (final (for_each l body self)).
Proof.
  intros Hbody. induction l as [|x l IH]; intros self HP; [done|].
  rewrite for_each_cons. specialize (Hbody x self HP).
  destruct (body x self); [by apply IH | done].
Qed.

Lemma parse_stride_store timestamp device_id channel_data i self :
  parse_stride timestamp device_id channel_data i self =
  match decode_stride channel_data i with
  | inl e => Raise e self
  | inr (channel_id, v) => store timestamp device_id channel_id v self
  end.
Proof.
  unfold parse_stride, decode_stride, store, resolve_device, resolve_in, index, int.
  unfold append_data, device_at, set_device, get, put.
  unfold mbind, M_bind, mret, M_ret, raise, lift.
  destruct (channel_data !! i) as [c0|]; [|done].
  destruct (PyInt.int c0) as [channel_id|]; [|done].
  destruct (channel_data !! (i + 2)%nat) as [c2|]; [|done].
  destruct (PyInt.int c2) as [decimal_places|]; [|done].
  destruct (channel_data !! (i + 3)%nat) as [c3|]; [|done].
  destruct (PyInt.int c3) as [raw_value|]; [|done].
  destruct (PyFloat.scale raw_value decimal_places) as [e|v]; [done|].
  unfold mret, raise. simpl.
  destruct (device_id_to_name self !! device_id) as [device_name|]; [|done].
  destruct (truthy device_name); [|done].
  destruct (devices self !! device_name) as [dev|] eqn:Hdev; [|done].
  destruct (data dev !! channel_id) as [points|] eqn:Hpts; [|done].
  rewrite Hdev, Hpts. done.
Qed.

End Effects.

(** ** The two loop bodies, line by line *)

Section Lines.

Ltac unfold_effects :=
  unfold set_channel, set_data, set_device_name, append_data, device_at,
    set_device, index, int, get, put, lift, raise, mbind, M_bind, mret, M_ret.

Lemma split_nonempty sep s : Text.split sep s ≠ [].
Proof.
  destruct s as [|c s]; simpl; [done|].
  destruct (Ascii.eqb c sep); [done|]. by destruct (Text.split sep s).
Qed.

(** The first loop body: a line that is not metadata changes nothing, a
    metadata line raises [ValueError] or takes effect as a declaration. *)
Lemma parse_device_line_declare line self :
  parse_device_line line self =
  if is_metadata_line line then
    match declaration_of line with
    | Some d => declare d self
    | None => Raise ValueError self
    end
  else Ret tt self.
Proof.
  unfold parse_device_line, declaration_of, is_metadata_line.
  destruct (Text.startswith "#" line); [done|]. simpl.
  destruct (Text.split ";" line) as [|p0 [|p1 [|p2 [|p3 rest]]]]; try done.
  unfold_effects. simpl.
  destruct (String.eqb p0 marker); [|done]. simpl.
  destruct (PyInt.int p1) as [device_id|]; [|done]. simpl.
  destruct (PyInt.int p2) as [channel_id|]; [|done]. simpl.
  destruct (channel_id =? 0)%Z.
  - destruct rest; simpl; by destruct (devices self !! Text.strip p3).
  - unfold declare, resolve_device, resolve_in.
    destruct rest as [|p4 rest]; simpl;
      (destruct (device_id_to_name self !! device_id) as [device_name|];
       [|done]);
      (destruct (truthy device_name); [|done]);
      (destruct (devices self !! device_name) as [dev|]; [|done]);
      simpl; rewrite lookup_insert_eq; simpl; by rewrite insert_insert_eq.
Qed.

(** The second loop body: a line that is skipped changes nothing, a data
    line raises [ValueError] on its first two fields or runs the strides. *)
Lemma parse_entry_line_strides line self :
  parse_entry_line line self =
  if is_data_line line then
    let parts := Text.split ";" line in
    let channel_data := drop 2 parts in
    match parts !! 0%nat ≫= PyInt.int with
    | None => Raise ValueError self
    | Some timestamp =>
        match parts !! 1%nat ≫= PyInt.int with
        | None => Raise ValueError self
        | Some device_id =>
            for_each (range_by_4 (length channel_data))
              (parse_stride timestamp device_id channel_data) self
        end
    end
  else Ret tt self.
Proof.
  unfold parse_entry_line, is_data_line.
  destruct (Text.startswith "#" line || Text.startswith marker line); [done|].
  rewrite Nat.ltb_antisym, andb_true_l.
  destruct (6 <=? length (Text.split ";" line))%nat eqn:Hle; [|done].
  apply Nat.leb_le in Hle. cbn [negb].
  destruct (Text.split ";" line) as [|p0 [|p1 rest]];
    [simpl in Hle; lia | simpl in Hle; lia |].
  unfold index, int, raise, mbind at 1 2 3 4, M_bind, mret, M_ret. simpl.
  destruct (PyInt.int p0) as [timestamp|]; [|done]. simpl.
  by destruct (PyInt.int p1) as [device_id|].
Qed.

End Lines.

(** ** Invariants of the parser object *)

Section Invariants.

Implicit Types self : JetiTelemetryParser.

Lemma same_shape_refl self : same_shape self self.
Proof.
  repeat split. intros device_name. by destruct (devices self !! device_name).
Qed.

Lemma same_shape_trans self1 self2 self3 :
  same_shape self1 self2 → same_shape self2 self3 → same_shape self1 self3.
Proof.
  intros (Hr1 & Hi1 & Hd1) (Hr2 & Hi2 & Hd2).
  split; [congruence|]. split; [congruence|].
  intros device_name. specialize (Hd1 device_name). specialize (Hd2 device_name).
  destruct (devices self1 !! device_name), (devices self2 !! device_name),
    (devices self3 !! device_name); try done.
  destruct Hd1, Hd2. split; congruence.
Qed.

Lemma same_shape_registry_closed self self' :
  same_shape self self' → registry_closed self → registry_closed self'.
Proof.
  intros (_ & Hi & Hd) Hc device_id device_name Hin.
  rewrite Hi in Hin. specialize (Hc _ _ Hin). specialize (Hd device_name).
  simpl in Hc. destruct Hc as [dev Hdev]. rewrite Hdev in Hd.
  by destruct (devices self' !! device_name).
Qed.

Lemma same_shape_data_described self self' :
  same_shape self self' → data_described self → data_described self'.
Proof.
  intros (_ & _ & Hd) Hc device_name dev' Hdev'.
  specialize (Hd device_name). rewrite Hdev' in Hd.
  destruct (devices self !! device_name) as [dev|] eqn:Hdev; [|done].
  destruct Hd as [Hch Hdom]. specialize (Hc _ _ Hdev). simpl in Hc.
  congruence.
Qed.

Lemma store_same_shape timestamp device_id channel_id v self :
  same_shape self (final (store timestamp device_id channel_id v self)).
Proof.
  unfold store.
  destruct (resolve_device self device_id) as [device_name|];
    [|apply same_shape_refl].
  destruct (devices self !! device_name) as [dev|] eqn:Hdev;
    [|apply same_shape_refl].
  destruct (data dev !! channel_id) as [points|] eqn:Hpts;
    [|apply same_shape_refl].
  repeat split. intros name'. simpl.
  destruct (decide (device_name = name')) as [<-|Hne].
  - rewrite lookup_insert_eq, Hdev. simpl. split; [done|].
    apply dom_insert_lookup_L. by rewrite Hpts.
  - rewrite lookup_insert_ne by done. by destruct (devices self !! name').
Qed.

Lemma parse_stride_same_shape timestamp device_id channel_data i self :
  same_shape self (final (parse_stride timestamp device_id channel_data i self)).
Proof.
  rewrite parse_stride_store.
  destruct (decode_stride channel_data i) as [e|[channel_id v]];
    [apply same_shape_refl | apply store_same_shape].
Qed.

Lemma for_each_same_shape {A} (l : list A) body self :
  (∀ x self, same_shape self (final (body x self))) →
  same_shape self (final (for_each l body self)).
Proof.
  intros Hbody.
  apply (for_each_final (same_shape self)); [|apply same_shape_refl].
  intros x self' Hs. eapply same_shape_trans; [exact Hs | apply Hbody].
Qed.

Lemma parse_entry_line_same_shape line self :
  same_shape self (final (parse_entry_line line self)).
Proof.
  rewrite parse_entry_line_strides.
  destruct (is_data_line line); [|apply same_shape_refl]. cbv zeta.
  destruct (_ ≫= PyInt.int) as [timestamp|]; [|apply same_shape_refl].
  destruct (_ ≫= PyInt.int) as [device_id|]; [|apply same_shape_refl].
  apply for_each_same_shape. intros. apply parse_stride_same_shape.
Qed.

(** The closing conversion leaves the object as it is. *)
Lemma convert_series_id self : convert_series self = Ret tt self.
Proof.
  unfold convert_series, get, put, mbind, M_bind. f_equal.
  destruct self as [raw devs reg]. simpl. f_equal.
  rewrite <- (map_fmap_id devs) at 2. apply map_fmap_ext.
  intros device_name [chs dat] _. simpl. f_equal.
  unfold np_array. apply (map_fmap_id dat).
Qed.

Lemma _parse_entries_unfold lines self :
  _parse_entries lines self = for_each lines parse_entry_line self.
Proof.
  unfold _parse_entries. rewrite bind_unfold.
  destruct (for_each lines parse_entry_line self) as [[] self'|]; [|done].
  apply convert_series_id.
Qed.

Lemma _parse_entries_same_shape lines self :
  same_shape self (final (_parse_entries lines self)).
Proof.
  rewrite _parse_entries_unfold. apply for_each_same_shape.
  intros. apply parse_entry_line_same_shape.
Qed.

Lemma run_unfold log_data :
  run log_data =
  match _parse_devices (Text.splitlines log_data) (__init__ log_data) with
  | Ret _ self' => _parse_entries (Text.splitlines log_data) self'
  | Raise e self' => Raise e self'
  end.
Proof. reflexivity. Qed.

(** A loop never raises an exception that its body cannot raise from a
    state satisfying an invariant of the body. *)
Lemma for_each_never {A} (P : JetiTelemetryParser → Prop) (e : exn)
    (l : list A) body :
  (∀ x self, P self →
     P (final (body x self)) ∧ raised (body x self) ≠ Some e) →
  ∀ self, P self → raised (for_each l body self) ≠ Some e.
Proof.
  intros Hbody. induction l as [|x l IH]; intros self HP; [done|].
  rewrite for_each_cons. destruct (Hbody x self HP) as [HP' Hne].
  destruct (body x self); [by apply IH | done].
Qed.

Lemma store_no_KeyError timestamp device_id channel_id v self :
  registry_closed self →
  raised (store timestamp device_id channel_id v self) ≠ Some KeyError.
Proof.
  intros Hc. unfold store, resolve_device, resolve_in.
  destruct (device_id_to_name self !! device_id) as [device_name|] eqn:Hid;
    [|done].
  destruct (truthy device_name); [|done].
  destruct (Hc _ _ Hid) as [dev ->].
  by destruct (data dev !! channel_id).
Qed.

Lemma parse_stride_no_KeyError timestamp device_id channel_data i self :
  registry_closed self →
  raised (parse_stride timestamp device_id channel_data i self) ≠ Some KeyError.
Proof.
  intros Hc. rewrite parse_stride_store.
  destruct (decode_stride channel_data i) as [e|[channel_id v]] eqn:Hd.
  - simpl. intros [= ->]. revert Hd. unfold decode_stride, PyFloat.scale,
      PyFloat.pow10, PyFloat.int_truediv, PyFloat.float_rtruediv, PyFloat.of_int.
    repeat case_match; congruence.
  - by apply store_no_KeyError.
Qed.

Lemma parse_entry_line_no_KeyError line self :
  registry_closed self →
  raised (parse_entry_line line self) ≠ Some KeyError.
Proof.
  intros Hc. rewrite parse_entry_line_strides.
  destruct (is_data_line line); [|done]. cbv zeta.
  destruct (_ ≫= PyInt.int) as [timestamp|]; [|done].
  destruct (_ ≫= PyInt.int) as [device_id|]; [|done].
  apply (for_each_never registry_closed); [|done].
  intros i self' Hc'. split.
  - eapply same_shape_registry_closed; [apply parse_stride_same_shape|done].
  - by apply parse_stride_no_KeyError.
Qed.

End Invariants.

(** ** The first pass keeps the object well formed *)

Section RegistryBuilder.

Implicit Types self : JetiTelemetryParser.

Lemma well_formed_init log_data : well_formed (__init__ log_data).
Proof.
  split; [|split]; unfold registry_closed, data_described, series_empty;
    simpl; apply map_Forall_empty.
Qed.

Lemma declare_well_formed d self :
  well_formed self → well_formed (final (declare d self)).
Proof.
  intros (Hc & Hd & He). destruct d as [device_id device_name|device_id channel_id desc].
  - simpl. split; [|split].
    + intros id n. simpl. rewrite lookup_insert.
      case_decide as Hid.
      * intros [= <-]. destruct (devices self !! device_name) eqn:E.
        -- by rewrite E.
        -- by rewrite lookup_insert_eq.
      * intros Hin. specialize (Hc _ _ Hin). simpl in Hc.
        destruct (devices self !! device_name); [done|].
        rewrite lookup_insert. by case_decide.
    + destruct (devices self !! device_name) eqn:E; [done|].
      unfold data_described. simpl. apply map_Forall_insert_2; [|done].
      simpl. by rewrite !dom_empty_L.
    + destruct (devices self !! device_name) eqn:E; [done|].
      unfold series_empty. simpl. apply map_Forall_insert_2; [|done].
      simpl. apply map_Forall_empty.
  - simpl. destruct (resolve_device self device_id) as [device_name|];
      [|done].
    destruct (devices self !! device_name) as [dev|] eqn:Hdev; [|done].
    simpl. split; [|split].
    + intros id n Hin. specialize (Hc _ _ Hin). simpl in *.
      rewrite lookup_insert. by case_decide.
    + unfold data_described. simpl. apply map_Forall_insert_2; [|done].
      simpl. rewrite !dom_insert_L. specialize (Hd _ _ Hdev). simpl in Hd.
      by rewrite Hd.
    + unfold series_empty. simpl. apply map_Forall_insert_2; [|done].
      simpl. apply map_Forall_insert_2; [done|]. by apply (He _ _ Hdev).
Qed.

Lemma declare_no_KeyError d self :
  registry_closed self → raised (declare d self) ≠ Some KeyError.
Proof.
  intros Hc. destruct d as [device_id device_name|device_id channel_id desc];
    [done|].
  simpl. unfold resolve_device, resolve_in.
  destruct (device_id_to_name self !! device_id) as [device_name|] eqn:Hid;
    [|done].
  destruct (truthy device_name); [|done].
  by destruct (Hc _ _ Hid) as [dev ->].
Qed.

Lemma parse_device_line_well_formed line self :
  well_formed self → well_formed (final (parse_device_line line self)).
Proof.
  intros Hw. rewrite parse_device_line_declare.
  destruct (is_metadata_line line); [|done].
  destruct (declaration_of line) as [d|]; [|done].
  by apply declare_well_formed.
Qed.

Lemma parse_device_line_no_KeyError line self :
  registry_closed self → raised (parse_device_line line self) ≠ Some KeyError.
Proof.
  intros Hc. rewrite parse_device_line_declare.
  destruct (is_metadata_line line); [|done].
  destruct (declaration_of line) as [d|]; [|done].
  by apply declare_no_KeyError.
Qed.

Lemma _parse_devices_well_formed lines self :
  well_formed self → well_formed (final (_parse_devices lines self)).
Proof.
  apply (for_each_final well_formed). intros. by apply parse_device_line_well_formed.
Qed.

Lemma _parse_devices_no_KeyError lines self :
  well_formed self → raised (_parse_devices lines self) ≠ Some KeyError.
Proof.
  apply (for_each_never well_formed). intros line self' Hw. split.
  - by apply parse_device_line_well_formed.
  - apply parse_device_line_no_KeyError, Hw.
Qed.

Lemma _parse_entries_no_KeyError lines self :
  registry_closed self → raised (_parse_entries lines self) ≠ Some KeyError.
Proof.
  rewrite _parse_entries_unfold.
  apply (for_each_never registry_closed). intros line self' Hc. split.
  - eapply same_shape_registry_closed;
      [apply parse_entry_line_same_shape | done].
  - by apply parse_entry_line_no_KeyError.
Qed.

End RegistryBuilder.

(** ** Properties of a whole parse *)

Section WholeParse.

Implicit Types self : JetiTelemetryParser.

Lemma run_after_devices_well_formed lines log_data :
  well_formed (final (_parse_devices lines (__init__ log_data))).
Proof. apply _parse_devices_well_formed, well_formed_init. Qed.

Lemma run_registry_closed log_data : registry_closed (final (run log_data)).
Proof.
  rewrite run_unfold.
  pose proof (run_after_devices_well_formed (Text.splitlines log_data) log_data)
    as (Hc & _ & _).
  destruct (_parse_devices _ _) as [[] self1|e self1]; [|done].
  eapply same_shape_registry_closed; [apply _parse_entries_same_shape|done].
Qed.

Lemma run_data_described log_data : data_described (final (run log_data)).
Proof.
  rewrite run_unfold.
  pose proof (run_after_devices_well_formed (Text.splitlines log_data) log_data)
    as (_ & Hd & _).
  destruct (_parse_devices _ _) as [[] self1|e self1]; [|done].
  eapply same_shape_data_described; [apply _parse_entries_same_shape|done].
Qed.

Lemma run_no_KeyError log_data : raised (run log_data) ≠ Some KeyError.
Proof.
  rewrite run_unfold.
  pose proof (run_after_devices_well_formed (Text.splitlines log_data) log_data)
    as Hw.
  pose proof (_parse_devices_no_KeyError (Text.splitlines log_data)
                (__init__ log_data) (well_formed_init log_data)) as Hk.
  destruct (_parse_devices _ _) as [[] self1|e self1]; [|done].
  apply _parse_entries_no_KeyError, Hw.
Qed.

(** C9. After the Registry Builder pass, run from a fresh parser on any
    lines, every device name in the registry is a key of [devices]; the
    Entry Decoder keeps it so after any lines, and neither the decoder nor a
    whole parse ever raises [KeyError]: a successful registry lookup is
    always followed by a successful access to the device. *)
Theorem registry_names_are_devices (log_data : string) (lines entries : list string) :
  let built := final (_parse_devices lines (__init__ log_data)) in
  registry_closed built
  ∧ registry_closed (final (for_each entries parse_entry_line built))
  ∧ raised (for_each entries parse_entry_line built) ≠ Some KeyError
  ∧ registry_closed (final (run log_data))
  ∧ raised (run log_data) ≠ Some KeyError.
Proof.
  intros built.
  pose proof (run_after_devices_well_formed lines log_data) as (Hc & _ & _).
  fold built in Hc. split; [done|]. split; [|split; [|split]].
  - eapply same_shape_registry_closed; [|exact Hc].
    apply for_each_same_shape. intros. apply parse_entry_line_same_shape.
  - rewrite <- _parse_entries_unfold. by apply _parse_entries_no_KeyError.
  - apply run_registry_closed.
  - apply run_no_KeyError.
Qed.

(** C7. After parsing any input, the channel ids that have a series in a
    device are exactly the channel ids that have a descriptor in it; and a
    data line, whatever it refers to, leaves the registry, the set of
    devices, every descriptor map and the key set of every data map as they
    were. *)
Theorem data_keys_have_descriptors (log_data line : string)
    (self : JetiTelemetryParser) :
  data_described (final (run log_data))
  ∧ same_shape self (final (parse_entry_line line self)).
Proof.
  split; [apply run_data_described | apply parse_entry_line_same_shape].
Qed.

(** C5. A stride that decodes but whose device id or channel id does not
    resolve leaves the parser object as it is and raises nothing, and the
    loop goes on with the remaining strides of the line. *)
Theorem unresolved_sample_is_dropped (timestamp device_id channel_id : Z)
    (v : float) (channel_data : list string) (i : nat) (rest : list nat)
    (self : JetiTelemetryParser) :
  registry_closed self →
  decode_stride channel_data i = inr (channel_id, v) →
  resolve_device self device_id ≫= (λ n, series self n channel_id) = None →
  parse_stride timestamp device_id channel_data i self = Ret tt self
  ∧ for_each (i :: rest) (parse_stride timestamp device_id channel_data) self
    = for_each rest (parse_stride timestamp device_id channel_data) self.
Proof.
  intros Hc Hd Hr.
  assert (parse_stride timestamp device_id channel_data i self = Ret tt self)
    as Hs.
  { rewrite parse_stride_store, Hd. unfold store.
    pose proof (store_no_KeyError timestamp device_id channel_id v self Hc) as Hk.
    unfold store in Hk.
    destruct (resolve_device self device_id) as [device_name|]; [|done].
    simpl in Hr. unfold series in Hr.
    destruct (devices self !! device_name) as [dev|]; [|done].
    simpl in Hr. by rewrite Hr. }
  split; [done|]. by rewrite for_each_cons, Hs.
Qed.

End WholeParse.

Lemma unresolved_sample_is_dropped_witness :
  registry_closed mhb_parser
  ∧ decode_stride ["16"; "0"; "2"; "12345"] 0
    = inr (16%Z, S754_finite false 8687021468732621 (-46))
  ∧ resolve_device mhb_parser 7 ≫= (λ n, series mhb_parser n 16) = None
  ∧ parse_stride 1000 7 ["16"; "0"; "2"; "12345"] 0 mhb_parser
    = Ret tt mhb_parser.
Proof.
  split; [apply run_registry_closed|].
  split; [vm_compute; reflexivity|].
  split; [vm_compute; reflexivity|].
  apply (unresolved_sample_is_dropped 1000 7 16
           (S754_finite false 8687021468732621 (-46))
           ["16"; "0"; "2"; "12345"] 0 []).
  - apply run_registry_closed.
  - vm_compute; reflexivity.
  - vm_compute; reflexivity.
Defined.

(** ** Decoding a sample *)

Section Decoding.

Lemma scale_nonnegative raw_value decimal_places :
  (0 ≤ decimal_places)%Z →
  PyFloat.scale raw_value decimal_places =
  let q := SFdiv PyFloat.prec PyFloat.emax (PyFloat.exact raw_value)
             (PyFloat.exact (10 ^ decimal_places)) in
  if PyFloat.is_finite q then inr q else inl OverflowError.
Proof.
  intros Hd. unfold PyFloat.scale, PyFloat.pow10, PyFloat.int_truediv.
  destruct (0 <=? decimal_places)%Z eqn:E; [|lia].
  assert (0 < 10 ^ decimal_places)%Z as Hpos by (apply Z.pow_pos_nonneg; lia).
  destruct (10 ^ decimal_places =? 0)%Z eqn:E0; [lia|done].
Qed.

(** C4. A stride whose fields convert to channel id, decimal places [d] not
    negative and raw value [r], and whose device and channel resolve, appends
    the timestamp paired with [r / 10 ** d]: the quotient of the two integers
    [r] and [10 ^ d] under binary64 division, rounded once to nearest, the
    sign of [r] kept (an infinite quotient raises instead). Raw 12345 with
    two decimal places gives the binary64 number closest to 123.45, and raw
    -500 with one decimal place gives exactly -50. *)
Theorem fixed_point_value (timestamp device_id channel_id d r : Z)
    (channel_data : list string) (i : nat) (c0 c2 c3 device_name : string)
    (dev : Device) (points : list sample) (self : JetiTelemetryParser) :
  channel_data !! i = Some c0 → PyInt.int c0 = Some channel_id →
  channel_data !! (i + 2)%nat = Some c2 → PyInt.int c2 = Some d →
  channel_data !! (i + 3)%nat = Some c3 → PyInt.int c3 = Some r →
  (0 ≤ d)%Z →
  resolve_device self device_id = Some device_name →
  devices self !! device_name = Some dev →
  data dev !! channel_id = Some points →
  let q := SFdiv PyFloat.prec PyFloat.emax (PyFloat.exact r)
             (PyFloat.exact (10 ^ d)) in
  parse_stride timestamp device_id channel_data i self
  = (if PyFloat.is_finite q
     then Ret tt (appended self device_name dev channel_id points (timestamp, q))
     else Raise OverflowError self)
  ∧ (∃ v, PyFloat.scale 12345 2 = inr v ∧ nearest v 12345 100 = true)
  ∧ (∃ v, PyFloat.scale (-500) 1 = inr v ∧ represents v (-50) 1 = true).
Proof.
  intros H0 Hc0 H2 Hc2 H3 Hc3 Hd Hres Hdev Hpts q. split; [|split].
  - rewrite parse_stride_store. unfold decode_stride.
    rewrite H0, Hc0, H2, Hc2, H3, Hc3, (scale_nonnegative r d Hd).
    cbv zeta. fold q. destruct (PyFloat.is_finite q); [|done].
    unfold store. by rewrite Hres, Hdev, Hpts.
  - eexists. split; vm_compute; reflexivity.
  - eexists. split; vm_compute; reflexivity.
Qed.

End Decoding.

Lemma fixed_point_value_witness :
  parse_stride 1000 7 ["15"; "0"; "2"; "12345"] 0 mhb_parser
  = Ret tt (appended mhb_parser "MHB"
              {| channels := {[15%Z := {| ch_name := "Altitude";
                                         ch_unit := Some "m" |}]};
                 data := {[15%Z := []]} |}
              15 [] (1000%Z, S754_finite false 8687021468732621 (-46))).
Proof.
  refine (proj1 (fixed_point_value 1000 7 15 2 12345
                   ["15"; "0"; "2"; "12345"] 0 "15" "2" "12345" "MHB"
                   _ [] mhb_parser _ _ _ _ _ _ _ _ _ _));
    try (vm_compute; reflexivity).
  vm_compute. discriminate.
Defined.

(** ** Exceptions end the parse *)

Section Abort.

Implicit Types self : JetiTelemetryParser.

(** A loop that reaches a raising item stops there: the items after it are
    not processed. *)
Lemma for_each_abort {A} (pre post : list A) x body self :
  raised (for_each pre body self) = None →
  for_each (pre ++ x :: post) body self
  = match body x (final (for_each pre body self)) with
    | Ret _ self' => for_each post body self'
    | Raise e self' => Raise e self'
    end.
Proof.
  intros Hpre. rewrite for_each_app.
  destruct (for_each pre body self) as [[] self1|]; [|done].
  apply for_each_cons.
Qed.

(** A loop over a list with an item on which the body always raises ends by
    an exception. *)
Lemma for_each_raises_at {A} (l : list A) x body :
  x ∈ l → (∀ self, is_Some (raised (body x self))) →
  ∀ self, is_Some (raised (for_each l body self)).
Proof.
  intros Hin Hx. induction l as [|y l IH]; intros self.
  - by apply elem_of_nil in Hin.
  - rewrite for_each_cons. apply elem_of_cons in Hin as [<-|Hin].
    + specialize (Hx self).
      destruct (body x self); [by destruct Hx | by eexists].
    + destruct (body y self); [by apply IH | by eexists].
Qed.

Lemma field_fails_lookup fields j :
  field_fails fields j = true → fields !! j ≫= PyInt.int = None.
Proof.
  unfold field_fails, int_fails. destruct (fields !! j) as [f|]; [|done].
  simpl. by destruct (PyInt.int f).
Qed.

Lemma metadata_int_fails_raises line self :
  metadata_int_fails line = true →
  parse_device_line line self = Raise ValueError self.
Proof.
  unfold metadata_int_fails. intros [Hm Hf]%andb_true_iff.
  rewrite parse_device_line_declare, Hm. unfold declaration_of. rewrite Hm.
  apply orb_true_iff in Hf as [Hf|Hf]; apply field_fails_lookup in Hf;
    rewrite Hf.
  - done.
  - by destruct (Text.split ";" line !! 1%nat ≫= PyInt.int).
Qed.

Lemma stride_int_fails_decode channel_data i :
  stride_int_fails channel_data i = true →
  ∃ e, decode_stride channel_data i = inl e.
Proof.
  unfold stride_int_fails, field_fails, int_fails, decode_stride.
  destruct (channel_data !! i) as [c0|]; [|by eexists].
  destruct (PyInt.int c0); [|by eexists]. simpl.
  destruct (channel_data !! (i + 2)%nat) as [c2|]; [|by eexists].
  destruct (PyInt.int c2); [|by eexists]. simpl.
  destruct (channel_data !! (i + 3)%nat) as [c3|]; [|by eexists].
  destruct (PyInt.int c3); [done|by eexists].
Qed.

Lemma entry_int_fails_raises line self :
  entry_int_fails line = true → is_Some (raised (parse_entry_line line self)).
Proof.
  unfold entry_int_fails. intros [Hd Hf]%andb_true_iff.
  rewrite parse_entry_line_strides, Hd. cbv zeta.
  destruct (Text.split ";" line !! 0%nat ≫= PyInt.int) as [timestamp|] eqn:H0;
    [|by eexists].
  destruct (Text.split ";" line !! 1%nat ≫= PyInt.int) as [device_id|] eqn:H1;
    [|by eexists].
  apply orb_true_iff in Hf as [Hf|Hf].
  - apply orb_true_iff in Hf as [Hf|Hf]; apply field_fails_lookup in Hf;
      congruence.
  - apply existsb_exists in Hf as (i & Hin & Hi).
    apply (for_each_raises_at _ i); [by apply list_elem_of_In|].
    intros self'. rewrite parse_stride_store.
    destruct (stride_int_fails_decode _ _ Hi) as [e ->]. by eexists.
Qed.

Lemma run_raises_in_devices log_data line :
  line ∈ Text.splitlines log_data →
  (∀ self, is_Some (raised (parse_device_line line self))) →
  is_Some (raised (run log_data)).
Proof.
  intros Hin Hline. rewrite run_unfold.
  pose proof (for_each_raises_at _ _ parse_device_line Hin Hline
                (__init__ log_data)) as Hr.
  unfold _parse_devices.
  destruct (for_each _ _ _); [by destruct Hr | by eexists].
Qed.

Lemma run_raises_in_entries log_data line :
  line ∈ Text.splitlines log_data →
  (∀ self, is_Some (raised (parse_entry_line line self))) →
  is_Some (raised (run log_data)).
Proof.
  intros Hin Hline. rewrite run_unfold.
  destruct (_parse_devices _ _) as [[] self1|]; [|by eexists].
  rewrite _parse_entries_unfold. by apply (for_each_raises_at _ line).
Qed.

(** C1, as the code has it. A field that fails integer parsing is not
    skipped: [int] raises [ValueError] and nothing catches it. A log with a
    metadata line whose device id or channel id is not an integer, or with
    a data line whose timestamp, device id, or a stride's channel id,
    decimal places or raw value is not an integer, never parses to
    completion: [parse] ends by an exception. In the Registry Builder the
    exception is [ValueError], raised at the first such line with the
    object as the lines before it left it; in the Entry Decoder the pass
    ends at the first such line, in the outcome of that line alone. In both
    passes the lines after it are not processed. A line that is skipped at
    classification never raises. *)
Theorem int_failure_aborts_parse (log_data line : string)
    (pre post : list string) (self : JetiTelemetryParser) :
  line ∈ Text.splitlines log_data →
  metadata_int_fails line || entry_int_fails line = true →
  is_Some (raised (run log_data))
  ∧ (metadata_int_fails line = true →
     raised (_parse_devices pre self) = None →
     _parse_devices (pre ++ line :: post) self
     = Raise ValueError (final (_parse_devices pre self)))
  ∧ (entry_int_fails line = true →
     raised (for_each pre parse_entry_line self) = None →
     is_Some (raised (_parse_entries (pre ++ line :: post) self))
     ∧ _parse_entries (pre ++ line :: post) self
       = parse_entry_line line (final (for_each pre parse_entry_line self)))
  ∧ (is_metadata_line line = false → parse_device_line line self = Ret tt self)
  ∧ (is_data_line line = false → parse_entry_line line self = Ret tt self).
Proof.
  intros Hin Hbad. split; [|split; [|split; [|split]]].
  - apply orb_true_iff in Hbad as [Hbad|Hbad].
    + apply (run_raises_in_devices _ line Hin). intros self'.
      rewrite metadata_int_fails_raises by done. by eexists.
    + apply (run_raises_in_entries _ line Hin). intros self'.
      by apply entry_int_fails_raises.
  - intros Hm Hpre. unfold _parse_devices in *.
    by rewrite for_each_abort, metadata_int_fails_raises.
  - intros He Hpre. rewrite _parse_entries_unfold, for_each_abort by done.
    pose proof (entry_int_fails_raises line
                  (final (for_each pre parse_entry_line self)) He) as Hr.
    destruct (parse_entry_line line _); [by destruct Hr | by split; [eexists|]].
  - intros Hm. by rewrite parse_device_line_declare, Hm.
  - intros Hd. by rewrite parse_entry_line_strides, Hd.
Qed.

End Abort.

(** A log in which one data line has a timestamp that is not an integer. *)
Lemma int_failure_aborts_parse_witness :
  let log_data :=
    unlines (mhb_header ++ ["abc;7;15;0;2;12345"; "1000;7;15;0;2;12345"]) in
  "abc;7;15;0;2;12345" ∈ Text.splitlines log_data
  ∧ metadata_int_fails "abc;7;15;0;2;12345"
    || entry_int_fails "abc;7;15;0;2;12345" = true
  ∧ is_Some (raised (run log_data)).
Proof.
  intros log_data.
  assert ("abc;7;15;0;2;12345" ∈ Text.splitlines log_data) as Hin.
  { apply list_elem_of_In. vm_compute. auto. }
  split; [exact Hin|]. split; [vm_compute; reflexivity|].
  refine (proj1 (int_failure_aborts_parse log_data "abc;7;15;0;2;12345"
                   [] [] (__init__ "") Hin _)).
  vm_compute; reflexivity.
Defined.

(** C1 as stated fails: the non-numeric timestamp of the third line raises
    [ValueError]; the parse does not run to completion and the sample of the
    fourth line is never appended. *)
Lemma non_numeric_field_aborts :
  let log_data :=
    unlines (mhb_header ++ ["abc;7;15;0;2;12345"; "1000;7;15;0;2;12345"]) in
  raised (run log_data) = Some ValueError
  ∧ series (final (run log_data)) "MHB" 15 = Some [].
Proof. split; vm_compute; reflexivity. Qed.

(** C2 (defect in the code). On a data line with five per-channel fields
    the loop enters a second stride: the first stride appends its sample,
    then the index past the end raises [IndexError], the parse ends there
    and the next line is never read. *)
Theorem partial_stride_raises_IndexError :
  let log_data :=
    unlines (mhb_header ++ ["1000;7;15;0;2;12345;16"; "2000;7;15;0;1;-500"]) in
  range_by_4 (length (drop 2 (Text.split ";" "1000;7;15;0;2;12345;16")))
  = [0; 4]%nat
  ∧ decode_stride (drop 2 (Text.split ";" "1000;7;15;0;2;12345;16")) 4
    = inl IndexError
  ∧ raised (run log_data) = Some IndexError
  ∧ series (final (run log_data)) "MHB" 15
    = Some [(1000%Z, S754_finite false 8687021468732621 (-46))].
Proof. repeat split; vm_compute; reflexivity. Qed.

(** C3 (defect in the code). The data line whose timestamp field is
    [0000000001] does not have the marker as its first field, and the first
    pass does not take it for metadata; the second pass skips it all the
    same, because the line as a whole starts with the nine zeros of the
    marker. Its sample is lost, where the same line with timestamp [1] is
    decoded. *)
Theorem padded_timestamp_line_is_skipped (self : JetiTelemetryParser) :
  let line := "0000000001;7;15;0;2;12345" in
  Text.split ";" line !! 0%nat = Some "0000000001"
  ∧ is_metadata_line line = false
  ∧ Text.startswith marker line = true
  ∧ parse_entry_line line self = Ret tt self
  ∧ series (final (run (unlines (mhb_header ++ [line])))) "MHB" 15 = Some []
  ∧ series (final (run (unlines (mhb_header ++ ["1;7;15;0;2;12345"])))) "MHB" 15
    = Some [(1%Z, S754_finite false 8687021468732621 (-46))].
Proof.
  intros line. split; [|split; [|split; [|split; [|split]]]];
    vm_compute; reflexivity.
Qed.

(** ** Series are filled in encounter order *)

Section Series.

Local Open Scope list_scope.
Implicit Types self : JetiTelemetryParser.





Lemma same_shape_registry self self' :
  same_shape self self' → device_id_to_name self' = device_id_to_name self.
Proof. by intros (_ & ? & _). Qed.







End Series.


(** ** The first pass as a sequence of declarations *)

Section Declarations.

Implicit Types self : JetiTelemetryParser.

Lemma metadata_line_fields line :
  is_metadata_line line = true →
  ∃ p1 p2 p3 rest, Text.split ";" line = marker :: p1 :: p2 :: p3 :: rest.
Proof.
  unfold is_metadata_line.
  intros [[_ Hlen]%andb_true_iff Hp0]%andb_true_iff.
  apply Nat.leb_le in Hlen.
  destruct (Text.split ";" line) as [|p0 [|p1 [|p2 [|p3 rest]]]];
    simpl in Hlen; try lia.
  simpl in Hp0. apply String.eqb_eq in Hp0 as ->. by eexists _, _, _, _.
Qed.

Lemma declaration_of_metadata line d :
  declaration_of line = Some d → is_metadata_line line = true.
Proof. unfold declaration_of. by destruct (is_metadata_line line). Qed.

Lemma metadata_int_fails_declaration line :
  metadata_int_fails line
  = match declaration_of line with
    | Some _ => false
    | None => is_metadata_line line
    end.
Proof.
  unfold metadata_int_fails, declaration_of.
  destruct (is_metadata_line line) eqn:Hm; [|done].
  destruct (metadata_line_fields _ Hm) as (p1 & p2 & p3 & rest & ->).
  unfold field_fails, int_fails. simpl.
  destruct (PyInt.int p1); simpl; [|done].
  destruct (PyInt.int p2); simpl; [|done].
  by destruct (_ =? 0)%Z.
Qed.

Lemma declare_raised d self :
  registry_closed self → raised (declare d self) = None.
Proof.
  intros Hc. pose proof (declare_no_KeyError d self Hc) as Hk.
  destruct d as [device_id device_name|device_id channel_id desc]; [done|].
  simpl in *. destruct (resolve_device self device_id) as [n|]; [|done].
  by destruct (devices self !! n).
Qed.

Lemma declare_registry d self self' :
  declare d self = Ret tt self' →
  device_id_to_name self'
  = match d with
    | DeviceName device_id device_name =>
        <[device_id := device_name]> (device_id_to_name self)
    | Channel _ _ _ => device_id_to_name self
    end.
Proof.
  destruct d as [device_id device_name|device_id channel_id desc]; simpl.
  - by intros [= <-].
  - destruct (resolve_device self device_id) as [n|]; [|by intros [= <-]].
    destruct (devices self !! n); [by intros [= <-]|done].
Qed.

Lemma _parse_devices_declarations lines self :
  existsb metadata_int_fails lines = false →
  _parse_devices lines self = for_each (declarations lines) declare self.
Proof.
  unfold _parse_devices, declarations. revert self.
  induction lines as [|line lines IH]; intros self Hok; [done|].
  simpl in Hok. apply orb_false_iff in Hok as [Hline Hok].
  rewrite for_each_cons, parse_device_line_declare. simpl.
  rewrite metadata_int_fails_declaration in Hline.
  destruct (declaration_of line) as [d|] eqn:Hd.
  - rewrite (declaration_of_metadata _ _ Hd), for_each_cons.
    destruct (declare d self); [by apply IH | done].
  - rewrite Hline. by apply IH.
Qed.

Lemma _parse_devices_raised lines self :
  well_formed self →
  raised (_parse_devices lines self)
  = if existsb metadata_int_fails lines then Some ValueError else None.
Proof.
  unfold _parse_devices. revert self.
  induction lines as [|line lines IH]; intros self Hw; [done|].
  rewrite for_each_cons, parse_device_line_declare. simpl.
  rewrite metadata_int_fails_declaration.
  destruct (declaration_of line) as [d|] eqn:Hd.
  - rewrite (declaration_of_metadata _ _ Hd). simpl.
    pose proof (declare_well_formed d self Hw) as Hw'.
    pose proof (declare_raised d self (proj1 Hw)) as Hr.
    destruct (declare d self) as [[] self1|]; [by apply IH | done].
  - destruct (is_metadata_line line); [done|]. by apply IH.
Qed.

Lemma declare_all_raised decls self :
  well_formed self → raised (for_each decls declare self) = None.
Proof.
  revert self. induction decls as [|d decls IH]; intros self Hw; [done|].
  rewrite for_each_cons.
  pose proof (declare_well_formed d self Hw) as Hw'.
  pose proof (declare_raised d self (proj1 Hw)) as Hr.
  destruct (declare d self) as [[] self1|]; [by apply IH | done].
Qed.

Lemma declare_all_well_formed decls self :
  well_formed self → well_formed (final (for_each decls declare self)).
Proof.
  apply (for_each_final well_formed). intros. by apply declare_well_formed.
Qed.

Lemma declare_all_registry decls self :
  well_formed self →
  device_id_to_name (final (for_each decls declare self))
  = registry_after (device_id_to_name self) decls.
Proof.
  revert self. induction decls as [|d decls IH]; intros self Hw; [done|].
  rewrite for_each_cons.
  pose proof (declare_well_formed d self Hw) as Hw'.
  pose proof (declare_raised d self (proj1 Hw)) as Hr.
  destruct (declare d self) as [[] self1|] eqn:Hd; [|done].
  simpl in Hw'. rewrite (IH _ Hw'), (declare_registry _ _ _ Hd). by destruct d.
Qed.

Lemma registry_after_lookup registry decls device_id :
  registry_after registry decls !! device_id
  = match last (names_for device_id decls) with
    | Some device_name => Some device_name
    | None => registry !! device_id
    end.
Proof.
  revert registry.
  induction decls as [|[i n|i c desc] decls IH]; intros registry; simpl;
    [done| |apply IH].
  rewrite IH. destruct (decide (i = device_id)) as [->|Hne].
  - rewrite last_cons, lookup_insert_eq. by destruct (last _).
  - by rewrite lookup_insert_ne.
Qed.

Lemma merge_channels_lookup m l channel_id :
  merge_channels m l !! channel_id
  = match last_descriptor channel_id l with
    | Some desc => Some desc
    | None => m !! channel_id
    end.
Proof.
  unfold merge_channels. revert m.
  induction l as [|[c d] l IH]; intros m; simpl; [done|].
  rewrite IH. destruct (last_descriptor channel_id l); [done|].
  destruct (c =? channel_id)%Z eqn:Hc.
  - apply Z.eqb_eq in Hc as ->. by rewrite lookup_insert_eq.
  - apply Z.eqb_neq in Hc. by rewrite lookup_insert_ne.
Qed.

Lemma declare_all_channels decls self name :
  well_formed self →
  channels <$> (devices (final (for_each decls declare self)) !! name)
  = match devices self !! name with
    | Some dev =>
        Some (merge_channels (channels dev)
                (channels_declared (device_id_to_name self) decls name))
    | None =>
        if decide (name ∈ names_declared decls)
        then Some (merge_channels ∅
                     (channels_declared (device_id_to_name self) decls name))
        else None
    end.
Proof.
  revert self. induction decls as [|d decls IH]; intros self Hw.
  - simpl. by destruct (devices self !! name).
  - rewrite for_each_cons.
    pose proof (declare_well_formed d self Hw) as Hw'.
    pose proof (declare_raised d self (proj1 Hw)) as Hr.
    destruct (declare d self) as [[] self1|] eqn:Hd; [|done].
    simpl in Hw'. rewrite (IH _ Hw'), (declare_registry _ _ _ Hd). clear IH.
    destruct d as [device_id n|device_id channel_id desc]; simpl in Hd.
    + injection Hd as <-. simpl.
      destruct (decide (n = name)) as [->|Hne].
      * destruct (devices self !! name) as [dev|] eqn:Hdev.
        -- by rewrite Hdev.
        -- rewrite lookup_insert_eq. simpl.
           destruct (decide _) as [|Hin]; [done|].
           destruct Hin. apply list_elem_of_here.
      * assert (∀ l, name ∈ l ↔ name ∈ n :: l) as Hin.
        { intros l. rewrite elem_of_cons.
          split; [by right | intros [Heq|Hl]; [congruence|done]]. }
        destruct (devices self !! n) as [dev|] eqn:Hdev.
        -- destruct (devices self !! name); [done|].
           apply decide_ext, Hin.
        -- rewrite lookup_insert_ne by done.
           destruct (devices self !! name); [done|].
           apply decide_ext, Hin.
    + unfold resolve_device in Hd.
      destruct (resolve_in (device_id_to_name self) device_id) as [n|] eqn:Hres.
      * destruct (devices self !! n) as [dev|] eqn:Hdev; [|done].
        injection Hd as <-. simpl.
        destruct (decide (n = name)) as [->|Hne].
        -- rewrite lookup_insert_eq, Hdev. simpl.
           destruct (decide (resolve_in _ _ = _)) as [|Hn]; [done|].
           by destruct Hn.
        -- rewrite lookup_insert_ne by done.
           destruct (decide (resolve_in _ _ = _)) as [Hn|]; [congruence|done].
      * injection Hd as <-. simpl.
        destruct (decide (resolve_in _ _ = _)) as [Hn|]; [congruence|done].
Qed.

End Declarations.

(** ** Which exception ends a parse *)

Section Errors.

Implicit Types self : JetiTelemetryParser.

Lemma store_raised timestamp device_id channel_id v self :
  registry_closed self →
  raised (store timestamp device_id channel_id v self) = None.
Proof.
  intros Hc.
  pose proof (store_no_KeyError timestamp device_id channel_id v self Hc) as Hk.
  unfold store in *.
  destruct (resolve_device self device_id) as [n|]; [|done].
  destruct (devices self !! n) as [dev|]; [|done].
  by destruct (data dev !! channel_id).
Qed.

Lemma strides_raised timestamp device_id channel_data l self :
  registry_closed self →
  raised (for_each l (parse_stride timestamp device_id channel_data) self)
  = first_decode_error channel_data l.
Proof.
  revert self. induction l as [|i l IH]; intros self Hc; [done|].
  rewrite for_each_cons. simpl.
  pose proof (parse_stride_same_shape timestamp device_id channel_data i self)
    as Hshape.
  rewrite parse_stride_store in *.
  destruct (decode_stride channel_data i) as [e|[channel_id v]]; [done|].
  pose proof (store_raised timestamp device_id channel_id v self Hc) as Hr.
  destruct (store timestamp device_id channel_id v self) as [[] self1|];
    [|done].
  apply IH. eapply same_shape_registry_closed; [exact Hshape|done].
Qed.

Lemma parse_entry_line_raised line self :
  registry_closed self → raised (parse_entry_line line self) = entry_error line.
Proof.
  intros Hc. rewrite parse_entry_line_strides. unfold entry_error.
  destruct (is_data_line line); [|done]. cbv zeta.
  destruct (_ ≫= PyInt.int) as [timestamp|]; [|done].
  destruct (_ ≫= PyInt.int) as [device_id|]; [|done].
  by apply strides_raised.
Qed.

Lemma entries_raised lines self :
  registry_closed self →
  raised (for_each lines parse_entry_line self)
  = head (omap entry_error lines).
Proof.
  revert self. induction lines as [|line lines IH]; intros self Hc; [done|].
  rewrite for_each_cons. simpl.
  pose proof (parse_entry_line_same_shape line self) as Hshape.
  pose proof (parse_entry_line_raised line self Hc) as Hr.
  destruct (parse_entry_line line self) as [[] self1|e self1];
    simpl in Hr; rewrite <- Hr; [|done].
  apply IH. eapply same_shape_registry_closed; [exact Hshape|done].
Qed.

(** X2. The exception that ends a parse, if any, can be read off the lines
    of the log. If some metadata line has a device id or a channel id that
    is not an integer, the parse raises [ValueError], wherever that line is.
    Otherwise the parse raises what the first data line with a failing field
    or stride raises, and completes if there is no such line. *)
Theorem parse_raises_first_error (log_data : string) :
  raised (run log_data) = parse_error (Text.splitlines log_data).
Proof.
  rewrite run_unfold. unfold parse_error.
  pose proof (_parse_devices_raised (Text.splitlines log_data) _
                (well_formed_init log_data)) as Hr.
  pose proof (run_after_devices_well_formed (Text.splitlines log_data) log_data)
    as (Hc & _).
  destruct (_parse_devices _ _) as [[] self1|e self1]; simpl in Hr.
  - destruct (existsb _ _); [done|].
    rewrite _parse_entries_unfold. by apply entries_raised.
  - by destruct (existsb _ _).
Qed.

(** X3. A metadata line whose device id or channel id is not an integer
    makes the parse raise [ValueError] before any data line is decoded,
    wherever the line stands in the log: every series is left empty. *)
Theorem metadata_failure_leaves_no_samples (log_data line : string) :
  line ∈ Text.splitlines log_data →
  metadata_int_fails line = true →
  raised (run log_data) = Some ValueError
  ∧ series_empty (final (run log_data)).
Proof.
  intros Hin Hbad.
  assert (existsb metadata_int_fails (Text.splitlines log_data) = true) as Hex.
  { apply existsb_exists. exists line. by rewrite <- list_elem_of_In. }
  rewrite run_unfold.
  pose proof (_parse_devices_raised (Text.splitlines log_data) _
                (well_formed_init log_data)) as Hr.
  pose proof (run_after_devices_well_formed (Text.splitlines log_data) log_data)
    as (_ & _ & He).
  rewrite Hex in Hr.
  by destruct (_parse_devices _ _) as [[] self1|e self1].
Qed.

End Errors.

(** The failing metadata line is the last line of the log, after a data
    line that would otherwise be stored. *)
Lemma metadata_failure_leaves_no_samples_witness :
  let log_data :=
    unlines (mhb_header ++ ["1000;7;15;0;2;12345"; "000000000;x;0;Vario"]) in
  "000000000;x;0;Vario" ∈ Text.splitlines log_data
  ∧ metadata_int_fails "000000000;x;0;Vario" = true
  ∧ series (final (run log_data)) "MHB" 15 = Some []
  ∧ raised (run log_data) = Some ValueError
  ∧ series_empty (final (run log_data)).
Proof.
  intros log_data.
  assert ("000000000;x;0;Vario" ∈ Text.splitlines log_data) as Hin.
  { apply list_elem_of_In. vm_compute. auto. }
  split; [exact Hin|]. split; [vm_compute; reflexivity|].
  split; [vm_compute; reflexivity|].
  apply (metadata_failure_leaves_no_samples log_data "000000000;x;0;Vario" Hin).
  vm_compute; reflexivity.
Defined.

(** ** The registry and the devices after the first pass *)

Section Registry.

Implicit Types self : JetiTelemetryParser.

Lemma run_declarations log_data :
  existsb metadata_int_fails (Text.splitlines log_data) = false →
  same_shape
    (final (for_each (declarations (Text.splitlines log_data)) declare
              (__init__ log_data)))
    (final (run log_data)).
Proof.
  intros Hok. rewrite run_unfold, (_parse_devices_declarations _ _ Hok).
  pose proof (declare_all_raised (declarations (Text.splitlines log_data)) _
                (well_formed_init log_data)) as Hr.
  destruct (for_each _ declare _) as [[] self1|]; [|done].
  apply _parse_entries_same_shape.
Qed.

(** X4. When no metadata line fails, a device id is known after the parse
    under the name of its last device-name line, and is unknown if it has
    none. *)
Theorem registry_keeps_last_name (log_data : string) (device_id : Z) :
  existsb metadata_int_fails (Text.splitlines log_data) = false →
  device_id_to_name (final (run log_data)) !! device_id
  = last (names_for device_id (declarations (Text.splitlines log_data))).
Proof.
  intros Hok. rewrite (same_shape_registry _ _ (run_declarations _ Hok)).
  rewrite declare_all_registry by apply well_formed_init.
  rewrite registry_after_lookup. simpl. rewrite lookup_empty.
  by destruct (last _).
Qed.

(** X5. When no metadata line fails, the devices after the parse are the
    names of the device-name lines, one device per name however many lines
    and device ids carry it. The channels of a device are the merge of the
    channel lines whose device id stood for that name when they were read:
    for each channel id the descriptor of the last such line. *)
Theorem channels_are_merged (log_data device_name : string) :
  let decls := declarations (Text.splitlines log_data) in
  let declared := channels_declared ∅ decls device_name in
  existsb metadata_int_fails (Text.splitlines log_data) = false →
  match devices (final (run log_data)) !! device_name with
  | Some dev =>
      device_name ∈ names_declared decls
      ∧ channels dev = merge_channels ∅ declared
      ∧ ∀ channel_id,
          channels dev !! channel_id = last_descriptor channel_id declared
  | None => device_name ∉ names_declared decls
  end.
Proof.
  intros decls declared Hok.
  pose proof (run_declarations _ Hok) as (_ & _ & Hdev).
  specialize (Hdev device_name). fold decls in Hdev.
  pose proof (declare_all_channels decls (__init__ log_data) device_name
                (well_formed_init _)) as Hch.
  simpl in Hch. rewrite lookup_empty in Hch. fold declared in Hch.
  destruct (devices (final (for_each decls declare _)) !! device_name)
    as [dev1|];
    destruct (devices (final (run log_data)) !! device_name) as [dev|];
    try done; simpl in Hch.
  - destruct Hdev as [-> _].
    destruct (decide (device_name ∈ _)) as [Hin|]; [|done].
    injection Hch as ->. split; [done|]. split; [done|].
    intros channel_id. rewrite merge_channels_lookup, lookup_empty.
    by destruct (last_descriptor _ _).
  - by destruct (decide (device_name ∈ _)).
Qed.

End Registry.

Lemma registry_keeps_last_name_witness :
  let log_data :=
    unlines ["000000000;7;0;MHB"; "000000000;8;0;Vario"; "000000000;7;0;GPS"] in
  existsb metadata_int_fails (Text.splitlines log_data) = false
  ∧ device_id_to_name (final (run log_data)) !! 7%Z
    = last (names_for 7 (declarations (Text.splitlines log_data)))
  ∧ last (names_for 7 (declarations (Text.splitlines log_data))) = Some "GPS".
Proof.
  intros log_data.
  assert (existsb metadata_int_fails (Text.splitlines log_data) = false) as Hok
    by (vm_compute; reflexivity).
  split; [exact Hok|].
  split; [exact (registry_keeps_last_name log_data 7 Hok)|].
  vm_compute; reflexivity.
Defined.

Lemma channels_are_merged_witness :
  let log_data :=
    unlines ["000000000;7;0;MHB"; "000000000;7;15;Altitude;m";
             "000000000;8;0;MHB"; "000000000;8;15;Height;ft";
             "000000000;8;16;Speed"] in
  let decls := declarations (Text.splitlines log_data) in
  let declared := channels_declared ∅ decls "MHB" in
  existsb metadata_int_fails (Text.splitlines log_data) = false
  ∧ declared = [(15%Z, {| ch_name := "Altitude"; ch_unit := Some "m" |});
                (15%Z, {| ch_name := "Height"; ch_unit := Some "ft" |});
                (16%Z, {| ch_name := "Speed"; ch_unit := None |})]
  ∧ match devices (final (run log_data)) !! "MHB" with
    | Some dev =>
        "MHB" ∈ names_declared decls
        ∧ channels dev = merge_channels ∅ declared
        ∧ ∀ channel_id,
            channels dev !! channel_id = last_descriptor channel_id declared
    | None => "MHB" ∉ names_declared decls
    end.
Proof.
  intros log_data decls declared.
  assert (existsb metadata_int_fails (Text.splitlines log_data) = false) as Hok
    by (vm_compute; reflexivity).
  split; [exact Hok|]. split; [vm_compute; reflexivity|].
  exact (channels_are_merged log_data "MHB" Hok).
Defined.

(** ** Each line belongs to one pass *)

Section Passes.

Implicit Types self : JetiTelemetryParser.

Lemma split_head_prefix sep s p rest :
  Text.split sep s = p :: rest → Text.startswith p s = true.
Proof.
  revert p rest. induction s as [|c s IH]; intros p rest; simpl.
  - by intros [= <- <-].
  - destruct (Ascii.eqb c sep); [by intros [= <- <-]|].
    destruct (Text.split sep s) as [|h t] eqn:Hs; intros [= <- <-]; simpl;
      rewrite Ascii.eqb_refl; [done|].
    by eapply IH.
Qed.

Lemma metadata_line_not_data line :
  is_metadata_line line = true → is_data_line line = false.
Proof.
  intros Hm. destruct (metadata_line_fields _ Hm) as (p1 & p2 & p3 & rest & Hs).
  unfold is_data_line. rewrite (split_head_prefix _ _ _ _ Hs).
  by rewrite orb_true_r.
Qed.

Lemma for_each_filter {A} (P : A → bool) (l : list A) body self :
  (∀ x self, P x = false → body x self = Ret tt self) →
  for_each l body self = for_each (filter (λ x, P x = true) l) body self.
Proof.
  intros Hskip. revert self. induction l as [|x l IH]; intros self; [done|].
  rewrite filter_cons, for_each_cons. destruct (decide (P x = true)) as [|Hx].
  - rewrite for_each_cons. destruct (body x self); [apply IH | done].
  - apply not_true_is_false in Hx. rewrite (Hskip _ _ Hx). apply IH.
Qed.

Lemma _parse_devices_metadata_lines lines self :
  _parse_devices lines self = _parse_devices (metadata_lines lines) self.
Proof.
  apply (for_each_filter is_metadata_line). intros line self' Hm.
  by rewrite parse_device_line_declare, Hm.
Qed.

Lemma entries_data_lines lines self :
  for_each lines parse_entry_line self
  = for_each (data_lines lines) parse_entry_line self.
Proof.
  apply (for_each_filter is_data_line). intros line self' Hd.
  by rewrite parse_entry_line_strides, Hd.
Qed.

Lemma for_each_with_raw_data {A} raw (l : list A) body self :
  (∀ x self, body x (with_raw_data raw self)
             = outcome_map (with_raw_data raw) (body x self)) →
  for_each l body (with_raw_data raw self)
  = outcome_map (with_raw_data raw) (for_each l body self).
Proof.
  intros Hbody. revert self. induction l as [|x l IH]; intros self; [done|].
  rewrite !for_each_cons, Hbody.
  destruct (body x self); simpl; [apply IH | done].
Qed.

Lemma declare_with_raw_data raw d self :
  declare d (with_raw_data raw self)
  = outcome_map (with_raw_data raw) (declare d self).
Proof.
  destruct d as [device_id device_name|device_id channel_id desc]; simpl.
  - unfold with_raw_data. simpl. by destruct (devices self !! device_name).
  - unfold resolve_device. simpl.
    destruct (resolve_in _ _) as [n|]; [|done].
    by destruct (devices self !! n).
Qed.

Lemma store_with_raw_data raw timestamp device_id channel_id v self :
  store timestamp device_id channel_id v (with_raw_data raw self)
  = outcome_map (with_raw_data raw) (store timestamp device_id channel_id v self).
Proof.
  unfold store, resolve_device. simpl.
  destruct (resolve_in _ _) as [n|]; [|done].
  destruct (devices self !! n) as [dev|]; [|done].
  by destruct (data dev !! channel_id).
Qed.

Lemma parse_device_line_with_raw_data raw line self :
  parse_device_line line (with_raw_data raw self)
  = outcome_map (with_raw_data raw) (parse_device_line line self).
Proof.
  rewrite !parse_device_line_declare.
  destruct (is_metadata_line line); [|done].
  destruct (declaration_of line); [apply declare_with_raw_data | done].
Qed.

Lemma parse_entry_line_with_raw_data raw line self :
  parse_entry_line line (with_raw_data raw self)
  = outcome_map (with_raw_data raw) (parse_entry_line line self).
Proof.
  rewrite !parse_entry_line_strides.
  destruct (is_data_line line); [|done]. cbv zeta.
  destruct (_ ≫= PyInt.int) as [timestamp|]; [|done].
  destruct (_ ≫= PyInt.int) as [device_id|]; [|done].
  apply for_each_with_raw_data. intros i self'. rewrite !parse_stride_store.
  destruct (decode_stride _ _) as [e|[channel_id v]]; [done|].
  apply store_with_raw_data.
Qed.

(** A parse only depends on the metadata lines and on the data lines of
    the log. *)
Lemma run_lines log_data :
  run log_data
  = match for_each (metadata_lines (Text.splitlines log_data))
            parse_device_line (__init__ log_data) with
    | Ret _ self' =>
        for_each (data_lines (Text.splitlines log_data)) parse_entry_line self'
    | Raise e self' => Raise e self'
    end.
Proof.
  rewrite run_unfold, _parse_devices_metadata_lines. unfold _parse_devices.
  destruct (for_each _ parse_device_line _) as [[] self1|]; [|done].
  by rewrite _parse_entries_unfold, entries_data_lines.
Qed.

(** X6. No line is read by both passes: a line that the first pass takes
    for metadata is skipped by the second pass, even when it has six fields
    or more, and a line that the second pass decodes is skipped by the
    first. *)
Theorem no_line_is_read_twice (line : string) (self : JetiTelemetryParser) :
  is_metadata_line line && is_data_line line = false
  ∧ (is_metadata_line line = true → parse_entry_line line self = Ret tt self)
  ∧ (is_data_line line = true → parse_device_line line self = Ret tt self).
Proof.
  split; [|split].
  - destruct (is_metadata_line line) eqn:Hm; [|done].
    by apply metadata_line_not_data.
  - intros Hm. by rewrite parse_entry_line_strides, metadata_line_not_data.
  - intros Hd. rewrite parse_device_line_declare.
    destruct (is_metadata_line line) eqn:Hm; [|done].
    apply metadata_line_not_data in Hm. congruence.
Qed.

(** Two logs with the same metadata lines and the same data lines parse to
    the same result, up to the raw text kept in the object. *)
Lemma run_depends_on_lines log1 log2 :
  metadata_lines (Text.splitlines log1) = metadata_lines (Text.splitlines log2) →
  data_lines (Text.splitlines log1) = data_lines (Text.splitlines log2) →
  run log2 = outcome_map (with_raw_data log2) (run log1).
Proof.
  intros Hm Hd. rewrite !run_lines, <- Hm, <- Hd.
  change (__init__ log2) with (with_raw_data log2 (__init__ log1)).
  rewrite (for_each_with_raw_data log2 _ parse_device_line)
    by apply parse_device_line_with_raw_data.
  destruct (for_each _ parse_device_line _) as [[] self1|]; simpl; [|done].
  apply for_each_with_raw_data, parse_entry_line_with_raw_data.
Qed.

Lemma outcome_map_with_raw_data {A} raw (o : outcome A) :
  devices (final (outcome_map (with_raw_data raw) o)) = devices (final o)
  ∧ device_id_to_name (final (outcome_map (with_raw_data raw) o))
    = device_id_to_name (final o)
  ∧ raised (outcome_map (with_raw_data raw) o) = raised o.
Proof. by destruct o. Qed.

(** X7. The result of a parse depends only on the sequence of metadata
    lines and on the sequence of data lines of the log. Two logs that agree
    on both give the same devices, the same registry and the same exception
    or none: where the metadata lines stand among the data lines, and what
    comment, blank and short lines there are, does not matter. *)
Theorem interleaving_is_irrelevant (log1 log2 : string) :
  metadata_lines (Text.splitlines log1) = metadata_lines (Text.splitlines log2) →
  data_lines (Text.splitlines log1) = data_lines (Text.splitlines log2) →
  devices (final (run log1)) = devices (final (run log2))
  ∧ device_id_to_name (final (run log1)) = device_id_to_name (final (run log2))
  ∧ raised (run log1) = raised (run log2).
Proof.
  intros Hm Hd. rewrite (run_depends_on_lines log1 log2 Hm Hd).
  by destruct (run log1).
Qed.

End Passes.

Lemma no_line_is_read_twice_witness :
  let line := "000000000;7;15;Altitude;m;extra" in
  is_metadata_line line = true
  ∧ (6 <=? length (Text.split ";" line))%nat = true
  ∧ parse_entry_line line mhb_parser = Ret tt mhb_parser.
Proof.
  intros line.
  assert (is_metadata_line line = true) as Hm by (vm_compute; reflexivity).
  split; [exact Hm|]. split; [vm_compute; reflexivity|].
  exact (proj1 (proj2 (no_line_is_read_twice line mhb_parser)) Hm).
Defined.

(** The header at the top of one log and, with a comment and an empty
    line, after the data line of the other. *)
Lemma interleaving_is_irrelevant_witness :
  let log1 := unlines (mhb_header ++ ["1000;7;15;0;2;12345"]) in
  let log2 := unlines ["# log"; "1000;7;15;0;2;12345"; "000000000;7;0;MHB";
                       ""; "000000000;7;15;Altitude;m"] in
  metadata_lines (Text.splitlines log1) = metadata_lines (Text.splitlines log2)
  ∧ data_lines (Text.splitlines log1) = data_lines (Text.splitlines log2)
  ∧ series (final (run log2)) "MHB" 15
    = Some [(1000%Z, S754_finite false 8687021468732621 (-46))]
  ∧ devices (final (run log1)) = devices (final (run log2))
  ∧ device_id_to_name (final (run log1)) = device_id_to_name (final (run log2))
  ∧ raised (run log1) = raised (run log2).
Proof.
  intros log1 log2.
  assert (metadata_lines (Text.splitlines log1)
          = metadata_lines (Text.splitlines log2)) as Hm
    by (vm_compute; reflexivity).
  assert (data_lines (Text.splitlines log1)
          = data_lines (Text.splitlines log2)) as Hd
    by (vm_compute; reflexivity).
  split; [exact Hm|]. split; [exact Hd|]. split; [vm_compute; reflexivity|].
  exact (interleaving_is_irrelevant log1 log2 Hm Hd).
Defined.

(** ** Invariants of a whole parse *)

Section RunInvariants.

Implicit Types self : JetiTelemetryParser.

(** A property that holds of a fresh object, that declarations preserve and
    that does not depend on the contents of the series holds after a parse,
    however the parse ends. *)
Lemma run_invariant (P : JetiTelemetryParser → Prop) log_data :
  P (__init__ log_data) →
  (∀ line d self, declaration_of line = Some d → well_formed self →
                  P self → P (final (declare d self))) →
  (∀ self self', same_shape self self' → P self → P self') →
  P (final (run log_data)).
Proof.
  intros Hinit Hdecl Hshape. rewrite run_unfold.
  assert (well_formed (final (_parse_devices (Text.splitlines log_data)
                                (__init__ log_data)))
          ∧ P (final (_parse_devices (Text.splitlines log_data)
                        (__init__ log_data)))) as [_ HP].
  { apply (for_each_final (λ self, well_formed self ∧ P self));
      [|split; [apply well_formed_init | done]].
    intros line self [Hw HP]. split; [by apply parse_device_line_well_formed|].
    rewrite parse_device_line_declare.
    destruct (is_metadata_line line); [|done].
    destruct (declaration_of line) as [d|] eqn:Hd; [|done].
    by apply (Hdecl line). }
  destruct (_parse_devices _ _) as [[] self1|]; [|done].
  eapply Hshape; [apply _parse_entries_same_shape | done].
Qed.

Lemma resolve_in_nonempty registry device_id device_name :
  resolve_in registry device_id = Some device_name → device_name ≠ "".
Proof.
  unfold resolve_in, truthy.
  destruct (registry !! device_id) as [n|]; [|done].
  destruct (String.eqb n "") eqn:Hn; [done|].
  intros [= <-]. by apply String.eqb_neq in Hn.
Qed.

Lemma declaration_of_channel_nonzero line device_id channel_id desc :
  declaration_of line = Some (Channel device_id channel_id desc) →
  channel_id ≠ 0%Z.
Proof.
  unfold declaration_of. destruct (is_metadata_line line); [|done].
  destruct (_ ≫= PyInt.int) as [i|]; [|done].
  destruct (_ ≫= PyInt.int) as [c|]; [|done].
  destruct (_ !! 3%nat) as [p3|]; [|done].
  destruct (c =? 0)%Z eqn:Hc; [done|].
  apply Z.eqb_neq in Hc. by intros [= _ <- _].
Qed.

(** X8. After parsing any input, channel id 0 is a key of no device: a
    metadata line with channel id 0 only names a device, so no channel
    descriptor and no series is ever stored under 0, and a sample that a data
    line carries for channel 0 has nowhere to go. *)
Theorem channel_zero_is_never_a_channel (log_data : string) :
  map_Forall (λ _ dev, channels dev !! 0%Z = None ∧ data dev !! 0%Z = None)
             (devices (final (run log_data))).
Proof.
  assert (map_Forall (λ _ dev, channels dev !! 0%Z = None)
            (devices (final (run log_data)))) as Hch.
  { apply (run_invariant
             (λ self, map_Forall (λ _ dev, channels dev !! 0%Z = None)
                        (devices self))).
    - apply map_Forall_empty.
    - intros line [device_id n|device_id channel_id desc] self Hd Hw HP; simpl.
      + destruct (devices self !! n); [done|].
        apply map_Forall_insert_2; [done|exact HP].
      + apply declaration_of_channel_nonzero in Hd.
        destruct (resolve_device self device_id) as [n|]; [|done].
        destruct (devices self !! n) as [dev|] eqn:Hdev; [|done]. simpl.
        apply map_Forall_insert_2; [|exact HP]. simpl.
        rewrite lookup_insert_ne by done. exact (HP _ _ Hdev).
    - intros self self' (_ & _ & Hdev) HP name dev' Hdev'.
      specialize (Hdev name). rewrite Hdev' in Hdev.
      destruct (devices self !! name) as [dev|] eqn:Hd; [|done].
      destruct Hdev as [-> _]. exact (HP _ _ Hd). }
  intros name dev Hdev. split; [exact (Hch _ _ Hdev)|].
  pose proof (run_data_described log_data _ _ Hdev) as Hdom. simpl in Hdom.
  apply not_elem_of_dom. rewrite Hdom. apply not_elem_of_dom.
  exact (Hch _ _ Hdev).
Qed.

(** X9. After parsing any input, the device under the empty name, which a
    device-name line with a blank name creates, has no channel and no
    series: channel lines and samples for a device id that stands for the
    empty name are never stored under it. *)
Theorem unnamed_device_stays_empty (log_data : string) :
  unnamed_device_empty (final (run log_data)).
Proof.
  apply (run_invariant unnamed_device_empty).
  - done.
  - unfold unnamed_device_empty.
    intros line [device_id n|device_id channel_id desc] self Hd Hw HP; simpl.
    + destruct (devices self !! n) as [dev|] eqn:Hdev; [done|].
      destruct (decide (n = "")) as [->|Hn].
      * by rewrite lookup_insert_eq.
      * by rewrite lookup_insert_ne.
    + unfold resolve_device.
      destruct (resolve_in _ _) as [n|] eqn:Hres; [|done].
      apply resolve_in_nonempty in Hres.
      destruct (devices self !! n) as [dev|] eqn:Hdev; [|done]. simpl.
      by rewrite lookup_insert_ne.
  - unfold unnamed_device_empty. intros self self' (_ & _ & Hdev) HP.
    specialize (Hdev ""). destruct (devices self' !! "") as [dev'|]; [|done].
    destruct (devices self !! "") as [dev|]; [|done].
    destruct Hdev as [-> Hdom], HP as [-> Hdata]. split; [done|].
    apply dom_empty_inv_L. by rewrite Hdom, Hdata, dom_empty_L.
Qed.

Lemma lstrip_first s a :
  first_char (Text.lstrip s) = Some a → Text.isspace a = false.
Proof.
  induction s as [|c s IH]; simpl; [done|].
  destruct (Text.isspace c) eqn:Hc; [done|]. simpl. by intros [= <-].
Qed.

Lemma rstrip_first s a :
  first_char (Text.rstrip s) = Some a → first_char s = Some a.
Proof.
  destruct s as [|c s]; simpl; [done|].
  destruct (Text.rstrip s); [|done].
  by destruct (Text.isspace c).
Qed.

Lemma rstrip_last s b :
  last_char (Text.rstrip s) = Some b → Text.isspace b = false.
Proof.
  induction s as [|c s IH]; simpl; [done|].
  destruct (Text.rstrip s) as [|d r].
  - destruct (Text.isspace c) eqn:Hc; [done|]. simpl. by intros [= <-].
  - exact IH.
Qed.

Lemma strip_trimmed s : trimmed (Text.strip s) = true.
Proof.
  unfold trimmed, Text.strip.
  destruct (first_char _) as [a|] eqn:Ha; [|done].
  destruct (last_char _) as [b|] eqn:Hb; [|done].
  apply rstrip_first, lstrip_first in Ha. apply rstrip_last in Hb.
  by rewrite Ha, Hb.
Qed.

Lemma declaration_of_trimmed line d :
  declaration_of line = Some d →
  match d with
  | DeviceName _ device_name => trimmed device_name = true
  | Channel _ _ desc => descriptor_trimmed desc
  end.
Proof.
  unfold declaration_of. destruct (is_metadata_line line); [|done].
  destruct (_ ≫= PyInt.int) as [i|]; [|done].
  destruct (_ ≫= PyInt.int) as [c|]; [|done].
  destruct (_ !! 3%nat) as [p3|]; [|done].
  destruct (c =? 0)%Z; intros [= <-].
  - apply strip_trimmed.
  - split; simpl; [apply strip_trimmed|].
    destruct (_ !! 4%nat); simpl; [apply strip_trimmed | done].
Qed.

(** X10. After parsing any input, no name held by the parser object starts
    or ends with white space: not a device name, as a key of [devices] or as
    a value of the registry, and not the name or the unit of a channel
    descriptor. *)
Theorem names_are_trimmed (log_data : string) :
  names_trimmed (final (run log_data)).
Proof.
  apply (run_invariant names_trimmed).
  - split; apply map_Forall_empty.
  - intros line d self Hd Hw [Hdevs Hreg].
    apply declaration_of_trimmed in Hd.
    destruct d as [device_id n|device_id channel_id desc]; simpl.
    + split; simpl.
      * destruct (devices self !! n); [done|].
        apply map_Forall_insert_2; [|done].
        split; [done|apply map_Forall_empty].
      * by apply map_Forall_insert_2.
    + destruct (resolve_device self device_id) as [n|]; [|done].
      destruct (devices self !! n) as [dev|] eqn:Hdev; [|done].
      split; [|done]. simpl. destruct (Hdevs _ _ Hdev) as [Hn Hch].
      apply map_Forall_insert_2; [|done].
      split; [done|]. simpl. by apply map_Forall_insert_2.
  - intros self self' (_ & Hreg & Hdev) [Hdevs Hnames]. split.
    + intros name dev' Hdev'. specialize (Hdev name). rewrite Hdev' in Hdev.
      destruct (devices self !! name) as [dev|] eqn:Hd; [|done].
      destruct Hdev as [-> _]. exact (Hdevs _ _ Hd).
    + by rewrite Hreg.
Qed.

End RunInvariants.

(** A sample for channel 0 of a declared device is not stored. *)
Lemma channel_zero_is_never_a_channel_witness :
  let log_data := unlines (mhb_header ++ ["1000;7;0;0;2;12345"]) in
  let dev := {| channels := {[15%Z := {| ch_name := "Altitude";
                                        ch_unit := Some "m" |}]};
                data := {[15%Z := []]} |} in
  raised (run log_data) = None
  ∧ devices (final (run log_data)) !! "MHB" = Some dev
  ∧ channels dev !! 0%Z = None ∧ data dev !! 0%Z = None.
Proof.
  intros log_data dev.
  assert (devices (final (run log_data)) !! "MHB" = Some dev) as Hdev
    by (vm_compute; reflexivity).
  split; [vm_compute; reflexivity|]. split; [exact Hdev|].
  exact (channel_zero_is_never_a_channel log_data "MHB" dev Hdev).
Defined.

(** A device-name line with a blank name, then a channel line and a data
    line for the same device id. *)
Lemma unnamed_device_stays_empty_witness :
  let log_data :=
    unlines ["000000000;7;0; "; "000000000;7;15;Altitude;m";
             "1000;7;15;0;2;12345"] in
  raised (run log_data) = None
  ∧ device_id_to_name (final (run log_data)) !! 7%Z = Some ""
  ∧ is_Some (devices (final (run log_data)) !! "")
  ∧ unnamed_device_empty (final (run log_data)).
Proof.
  intros log_data.
  split; [vm_compute; reflexivity|]. split; [vm_compute; reflexivity|].
  split; [vm_compute; by eexists|].
  exact (unnamed_device_stays_empty log_data).
Defined.

(** Names and a unit written with blanks around them. *)
Lemma names_are_trimmed_witness :
  let log_data :=
    unlines ["000000000;7;0;  MHB  "; "000000000;7;15; Altitude ; m "] in
  (channels <$> devices (final (run log_data)) !! "MHB")
  = Some {[15%Z := {| ch_name := "Altitude"; ch_unit := Some "m" |}]}
  ∧ names_trimmed (final (run log_data)).
Proof.
  intros log_data. split; [vm_compute; reflexivity|].
  exact (names_are_trimmed log_data).
Defined.

(** ** The strides of a data line *)

Section Strides.

Implicit Types self : JetiTelemetryParser.

Lemma elem_of_range_by_4 i stop :
  i ∈ range_by_4 stop ↔ ∃ k, i = (4 * k)%nat ∧ (4 * k < stop)%nat.
Proof.
  unfold range_by_4. rewrite list_elem_of_fmap. setoid_rewrite elem_of_seq.
  split; intros (k & -> & Hk); exists k; (split; [done|]).
  - pose proof (Nat.div_mod_eq (stop + 3) 4).
    pose proof (Nat.mod_upper_bound (stop + 3) 4). lia.
  - pose proof (Nat.div_mod_eq (stop + 3) 4).
    pose proof (Nat.mod_upper_bound (stop + 3) 4). lia.
Qed.

Lemma for_each_ext_in {A} (l : list A) body1 body2 self :
  (∀ x self, x ∈ l → body1 x self = body2 x self) →
  for_each l body1 self = for_each l body2 self.
Proof.
  revert self. induction l as [|x l IH]; intros self Hext; [done|].
  rewrite !for_each_cons, Hext by apply list_elem_of_here.
  destruct (body2 x self); [|done].
  apply IH. intros y self' Hy. apply Hext. by apply list_elem_of_further.
Qed.

(** A stride that reaches past the end of the fields does not decode. *)
Lemma decode_stride_short channel_data i :
  (length channel_data ≤ i + 3)%nat →
  ∃ e, decode_stride channel_data i = inl e.
Proof.
  intros Hlen. unfold decode_stride.
  rewrite (lookup_ge_None_2 channel_data (i + 3)) by done.
  destruct (channel_data !! i) as [c0|]; [|by eexists].
  destruct (PyInt.int c0); [|by eexists].
  destruct (channel_data !! (i + 2)%nat) as [c2|]; [|by eexists].
  destruct (PyInt.int c2); by eexists.
Qed.

Lemma scale_not_IndexError raw_value decimal_places :
  PyFloat.scale raw_value decimal_places ≠ inl IndexError.
Proof.
  unfold PyFloat.scale, PyFloat.pow10, PyFloat.int_truediv,
    PyFloat.float_rtruediv, PyFloat.of_int.
  repeat case_match; congruence.
Qed.

(** Only a stride that reaches past the end of the fields raises
    [IndexError]. *)
Lemma decode_stride_IndexError channel_data i :
  decode_stride channel_data i = inl IndexError →
  (length channel_data ≤ i + 3)%nat.
Proof.
  intros Hd. destruct (decide (length channel_data ≤ i + 3)%nat) as [|Hlt];
    [done|exfalso].
  destruct (lookup_lt_is_Some_2 channel_data i) as [c0 H0]; [lia|].
  destruct (lookup_lt_is_Some_2 channel_data (i + 2)) as [c2 H2]; [lia|].
  destruct (lookup_lt_is_Some_2 channel_data (i + 3)) as [c3 H3]; [lia|].
  revert Hd. unfold decode_stride. rewrite H0, H2, H3.
  destruct (PyInt.int c0) as [channel_id|]; [|done].
  destruct (PyInt.int c2) as [decimal_places|]; [|done].
  destruct (PyInt.int c3) as [raw_value|]; [|done].
  pose proof (scale_not_IndexError raw_value decimal_places) as Hs.
  destruct (PyFloat.scale raw_value decimal_places); congruence.
Qed.

Lemma first_decode_error_IndexError channel_data l :
  first_decode_error channel_data l = Some IndexError →
  ∃ i, i ∈ l ∧ (length channel_data ≤ i + 3)%nat.
Proof.
  induction l as [|i l IH]; simpl; [done|].
  destruct (decode_stride channel_data i) as [e|] eqn:Hd.
  - intros [= ->]. exists i. split; [apply list_elem_of_here|].
    by apply decode_stride_IndexError.
  - intros (j & Hj & Hlen)%IH. exists j. split; [|done].
    by apply list_elem_of_further.
Qed.

(** X11. A data line whose per-channel fields are not a whole number of
    strides of four never decodes to the end: the last stride reaches past
    the end of the fields and the line raises. Conversely a data line raises
    [IndexError] only if its per-channel fields are not a whole number of
    strides. *)
Theorem incomplete_stride_raises (line : string) (self : JetiTelemetryParser) :
  is_data_line line = true →
  let channel_data := drop 2 (Text.split ";" line) in
  ((length channel_data `mod` 4 ≠ 0)%nat →
   is_Some (raised (parse_entry_line line self)))
  ∧ (registry_closed self →
     raised (parse_entry_line line self) = Some IndexError →
     (length channel_data `mod` 4 ≠ 0)%nat).
Proof.
  intros Hd channel_data. split.
  - intros Hmod. rewrite parse_entry_line_strides, Hd. cbv zeta.
    fold channel_data.
    destruct (_ ≫= PyInt.int) as [timestamp|]; [|by eexists].
    destruct (_ ≫= PyInt.int) as [device_id|]; [|by eexists].
    pose proof (Nat.div_mod_eq (length channel_data) 4) as Hdiv.
    pose proof (Nat.mod_upper_bound (length channel_data) 4) as Hup.
    apply (for_each_raises_at _ (4 * (length channel_data `div` 4))%nat).
    + apply elem_of_range_by_4. eexists. split; [done|lia].
    + intros self'. rewrite parse_stride_store.
      destruct (decode_stride_short channel_data
                  (4 * (length channel_data `div` 4))%nat) as [e ->];
        [lia | by eexists].
  - intros Hc. rewrite (parse_entry_line_raised _ _ Hc). unfold entry_error.
    rewrite Hd. cbv zeta. fold channel_data.
    destruct (_ ≫= PyInt.int) as [timestamp|]; [|done].
    destruct (_ ≫= PyInt.int) as [device_id|]; [|done].
    intros (i & (k & -> & Hk)%elem_of_range_by_4 & Hlen)%first_decode_error_IndexError.
    intros Hmod. apply Nat.Div0.div_exact in Hmod. lia.
Qed.

Lemma decode_stride_drop_insert (parts : list string) (j i : nat) (x : string) :
  j ≠ (2 + i)%nat → j ≠ (2 + (i + 2))%nat → j ≠ (2 + (i + 3))%nat →
  decode_stride (drop 2 (<[j := x]> parts)) i = decode_stride (drop 2 parts) i.
Proof.
  intros. unfold decode_stride.
  by rewrite !lookup_drop, !list_lookup_insert_ne by done.
Qed.

(** X12. The second field of a stride, the type code, is not read: two data
    lines that differ only in the type code of a stride have the same
    effect on the parser object. *)
Theorem type_field_is_ignored (line line' : string) (k : nat) (x : string)
    (self : JetiTelemetryParser) :
  is_data_line line = true →
  is_data_line line' = true →
  Text.split ";" line' = <[(4 * k + 3)%nat := x]> (Text.split ";" line) →
  parse_entry_line line' self = parse_entry_line line self.
Proof.
  intros Hd Hd' Hs. rewrite !parse_entry_line_strides, Hd, Hd'. cbv zeta.
  rewrite Hs, !list_lookup_insert_ne by lia.
  destruct (_ ≫= PyInt.int) as [timestamp|]; [|done].
  destruct (_ ≫= PyInt.int) as [device_id|]; [|done].
  rewrite !length_drop, length_insert.
  apply for_each_ext_in.
  intros i self' (k' & -> & _)%elem_of_range_by_4.
  rewrite !parse_stride_store.
  by rewrite decode_stride_drop_insert by lia.
Qed.

End Strides.

Lemma incomplete_stride_raises_witness :
  let line := "1000;7;15;0;2;12345;16;0" in
  is_data_line line = true
  ∧ (length (drop 2 (Text.split ";" line)) `mod` 4 ≠ 0)%nat
  ∧ is_Some (raised (parse_entry_line line mhb_parser)).
Proof.
  intros line.
  assert (is_data_line line = true) as Hd by (vm_compute; reflexivity).
  assert (length (drop 2 (Text.split ";" line)) `mod` 4 ≠ 0)%nat as Hmod
    by (vm_compute; discriminate).
  split; [exact Hd|]. split; [exact Hmod|].
  exact (proj1 (incomplete_stride_raises line mhb_parser Hd) Hmod).
Defined.

Lemma type_field_is_ignored_witness :
  let line := "1000;7;15;0;2;12345" in
  let line' := "1000;7;15;14;2;12345" in
  is_data_line line = true
  ∧ is_data_line line' = true
  ∧ Text.split ";" line' = <[(4 * 0 + 3)%nat := "14"]> (Text.split ";" line)
  ∧ parse_entry_line line' mhb_parser = parse_entry_line line mhb_parser.
Proof.
  intros line line'.
  assert (is_data_line line = true) as Hd by (vm_compute; reflexivity).
  assert (is_data_line line' = true) as Hd' by (vm_compute; reflexivity).
  assert (Text.split ";" line'
          = <[(4 * 0 + 3)%nat := "14"]> (Text.split ";" line)) as Hs
    by (vm_compute; reflexivity).
  split; [exact Hd|]. split; [exact Hd'|]. split; [exact Hs|].
  exact (type_field_is_ignored line line' 0 "14" mhb_parser Hd Hd' Hs).
Defined.

(** ** The sign of a scaled value *)

Section Sign.

Lemma binary_round_aux_opp sx mx ex lx :
  binary_round_aux PyFloat.prec PyFloat.emax (negb sx) mx ex lx
  = SFopp (binary_round_aux PyFloat.prec PyFloat.emax sx mx ex lx).
Proof.
  unfold binary_round_aux.
  destruct (shr_fexp _ _ mx ex lx) as [mrs' e'].
  destruct (shr_fexp _ _ _ e' loc_Exact) as [mrs'' e''].
  destruct (shr_m mrs''); simpl; [done| |done].
  by destruct (_ <=? _)%Z.
Qed.

Lemma SFdiv_opp_l x y :
  SFdiv PyFloat.prec PyFloat.emax (SFopp x) y
  = SFopp (SFdiv PyFloat.prec PyFloat.emax x y).
Proof.
  destruct x as [sx|sx| |sx mx ex], y as [sy|sy| |sy my ey]; simpl;
    rewrite <- ?negb_xorb_l; try done.
  destruct (SFdiv_core_binary _ _ _ _ _ _) as [[mz ez] lz].
  apply binary_round_aux_opp.
Qed.

Lemma exact_opp z : z ≠ 0%Z → PyFloat.exact (- z) = SFopp (PyFloat.exact z).
Proof. by destruct z. Qed.

Lemma is_finite_opp x : PyFloat.is_finite (SFopp x) = PyFloat.is_finite x.
Proof. by destruct x. Qed.

Lemma of_int_opp z :
  z ≠ 0%Z →
  PyFloat.of_int (- z)
  = match PyFloat.of_int z with
    | inl e => inl e
    | inr v => inr (SFopp v)
    end.
Proof.
  intros Hz. unfold PyFloat.of_int.
  assert (binary_normalize PyFloat.prec PyFloat.emax (- z) 0 false
          = SFopp (binary_normalize PyFloat.prec PyFloat.emax z 0 false)) as ->.
  { destruct z as [|p|p]; [done| |]; simpl; unfold binary_round;
      destruct (shl_align _ _ _) as [mz ez].
    - apply (binary_round_aux_opp false).
    - change true with (negb false). rewrite binary_round_aux_opp.
      by destruct (binary_round_aux _ _ _ _ _ _) as [[]|[]| |[] ? ?]. }
  rewrite is_finite_opp. by destruct (PyFloat.is_finite _).
Qed.

(** X13. Scaling is symmetric in the sign of the raw value: the value
    decoded from [- r] is the negation of the value decoded from [r], bit for
    bit, and the one raises exactly when the other does, with the same
    exception. *)
Theorem scale_is_odd (raw_value decimal_places : Z) :
  raw_value ≠ 0%Z →
  PyFloat.scale (- raw_value) decimal_places
  = match PyFloat.scale raw_value decimal_places with
    | inl e => inl e
    | inr v => inr (SFopp v)
    end.
Proof.
  intros Hr. unfold PyFloat.scale.
  destruct (PyFloat.pow10 decimal_places) as [e|[p|f]]; [done| |].
  - unfold PyFloat.int_truediv. destruct (p =? 0)%Z; [done|].
    rewrite (exact_opp _ Hr), SFdiv_opp_l, is_finite_opp.
    by destruct (PyFloat.is_finite _).
  - unfold PyFloat.float_rtruediv. rewrite (of_int_opp _ Hr).
    destruct (PyFloat.of_int raw_value) as [e|v]; [done|].
    destruct (PyFloat.is_zero f); [done|]. by rewrite SFdiv_opp_l.
Qed.

End Sign.

Lemma scale_is_odd_witness :
  PyFloat.scale 500 1 = inr (S754_finite false 7036874417766400 (-47))
  ∧ PyFloat.scale (- 500) 1 = inr (S754_finite true 7036874417766400 (-47)).
Proof.
  assert (PyFloat.scale 500 1 = inr (S754_finite false 7036874417766400 (-47)))
    as Hs by (vm_compute; reflexivity).
  split; [exact Hs|].
  assert (500 ≠ 0)%Z as Hr by discriminate.
  pose proof (scale_is_odd 500 1 Hr) as Hodd.
  rewrite Hs in Hodd. exact Hodd.
Defined.

(** ** Line endings *)

Section LineEndings.

Implicit Types self : JetiTelemetryParser.

Lemma string_app_nil_l (s : string) : "" ++ s = s.
Proof. reflexivity. Qed.

Lemma string_app_cons c (s t : string) : String c s ++ t = String c (s ++ t).
Proof. reflexivity. Qed.

Lemma string_app_nil_r (s : string) : s ++ "" = s.
Proof.
  induction s as [|c s IH]; [done|]. by rewrite string_app_cons, IH.
Qed.

Lemma string_app_assoc (s1 s2 s3 : string) : (s1 ++ s2) ++ s3 = s1 ++ s2 ++ s3.
Proof.
  induction s1 as [|c s1 IH]; [done|]. by rewrite !string_app_cons, IH.
Qed.

(** Reading one line that ends with a line feed, or with a carriage return
    and a line feed. *)
Lemma splitlines_from_line line cur open rest :
  linebreak_free line = true →
  Text.splitlines_from cur open (line ++ LF ++ rest)
  = (cur ++ line) :: Text.splitlines_from "" false rest
  ∧ Text.splitlines_from cur open (line ++ CRLF ++ rest)
    = (cur ++ line) :: Text.splitlines_from "" false rest.
Proof.
  revert cur open. induction line as [|c line IH]; intros cur open Hfree.
  - unfold LF, CRLF.
    rewrite string_app_nil_r, !string_app_nil_l, !string_app_cons,
      !string_app_nil_l.
    split; [|done]. simpl. by destruct rest.
  - simpl in Hfree. apply andb_true_iff in Hfree as [Hc Hfree].
    apply negb_true_iff in Hc. rewrite !string_app_cons. simpl. rewrite Hc.
    destruct (IH (cur ++ String c "") true Hfree) as [-> ->].
    by rewrite string_app_assoc.
Qed.

Lemma splitlines_join_lines lines :
  forallb linebreak_free lines = true →
  Text.splitlines (join_lines LF lines) = lines
  ∧ Text.splitlines (join_lines CRLF lines) = lines.
Proof.
  unfold Text.splitlines. induction lines as [|line lines IH]; [done|].
  simpl. intros [Hline Hlines]%andb_true_iff.
  destruct (splitlines_from_line line "" false (join_lines LF lines) Hline)
    as [-> _].
  destruct (splitlines_from_line line "" false (join_lines CRLF lines) Hline)
    as [_ ->].
  destruct (IH Hlines) as [-> ->]. done.
Qed.

(** Appending a line feed to a text adds no line, or one empty line. *)
Lemma splitlines_from_newline n s cur open :
  (String.length s ≤ n)%nat → (open = false → cur = "") →
  Text.splitlines_from cur open (s ++ LF) = Text.splitlines_from cur open s
  ∨ Text.splitlines_from cur open (s ++ LF)
    = (Text.splitlines_from cur open s ++ [""])%list.
Proof.
  assert (∀ cur open, (open = false → cur = "") →
            Text.splitlines_from cur open LF = Text.splitlines_from cur open ""
            ∨ Text.splitlines_from cur open LF
              = (Text.splitlines_from cur open "" ++ [""])%list) as Hnil.
  { intros cur' [] Hcur; simpl; [by left|]. right. by rewrite Hcur. }
  revert s cur open. induction n as [|n IH]; intros s cur open Hlen Hcur.
  - destruct s; [|simpl in Hlen; lia]. by apply Hnil.
  - destruct s as [|c s]; [by apply Hnil|].
    simpl in Hlen. rewrite string_app_cons. simpl.
    destruct (Text.is_linebreak c).
    + destruct s as [|d s].
      * rewrite string_app_nil_l. unfold LF.
        destruct (Text.code c =? 13)%N; simpl; [by left | by right].
      * rewrite string_app_cons. simpl in Hlen.
        destruct ((Text.code c =? 13)%N && (Text.code d =? 10)%N).
        -- destruct (IH s "" false) as [->| ->]; [lia|done|by left|by right].
        -- rewrite <- string_app_cons.
           destruct (IH (String d s) "" false) as [->| ->];
             [simpl; lia|done|by left|by right].
    + destruct (IH s (cur ++ String c "") true) as [->| ->];
        [lia|done|by left|by right].
Qed.

Lemma metadata_lines_empty_line lines :
  metadata_lines (lines ++ [""]) = metadata_lines lines.
Proof. unfold metadata_lines. rewrite filter_app. apply app_nil_r. Qed.

Lemma data_lines_empty_line lines :
  data_lines (lines ++ [""]) = data_lines lines.
Proof. unfold data_lines. rewrite filter_app. apply app_nil_r. Qed.

(** X14. A line feed added at the end of a log changes nothing in the
    result of the parse: the same devices, the same registry, the same
    exception or none. *)
Theorem trailing_newline_is_irrelevant (log_data : string) :
  devices (final (run (log_data ++ LF))) = devices (final (run log_data))
  ∧ device_id_to_name (final (run (log_data ++ LF)))
    = device_id_to_name (final (run log_data))
  ∧ raised (run (log_data ++ LF)) = raised (run log_data).
Proof.
  rewrite (run_depends_on_lines log_data (log_data ++ LF)).
  - apply outcome_map_with_raw_data.
  - unfold Text.splitlines.
    destruct (splitlines_from_newline (String.length log_data) log_data
                "" false) as [->| ->]; [done|done|done|].
    by rewrite metadata_lines_empty_line.
  - unfold Text.splitlines.
    destruct (splitlines_from_newline (String.length log_data) log_data
                "" false) as [->| ->]; [done|done|done|].
    by rewrite data_lines_empty_line.
Qed.

(** X15. A log whose lines end with a carriage return and a line feed is
    split into the same lines, and parsed to the same result, as the log
    whose lines end with a line feed alone. *)
Theorem line_ending_is_irrelevant (lines : list string) :
  forallb linebreak_free lines = true →
  Text.splitlines (join_lines LF lines) = lines
  ∧ Text.splitlines (join_lines CRLF lines) = lines
  ∧ devices (final (run (join_lines CRLF lines)))
    = devices (final (run (join_lines LF lines)))
  ∧ device_id_to_name (final (run (join_lines CRLF lines)))
    = device_id_to_name (final (run (join_lines LF lines)))
  ∧ raised (run (join_lines CRLF lines)) = raised (run (join_lines LF lines)).
Proof.
  intros Hfree. destruct (splitlines_join_lines lines Hfree) as [Hlf Hcrlf].
  split; [done|]. split; [done|].
  rewrite (run_depends_on_lines (join_lines LF lines) (join_lines CRLF lines))
    by (by rewrite Hlf, Hcrlf).
  apply outcome_map_with_raw_data.
Qed.

End LineEndings.

Lemma line_ending_is_irrelevant_witness :
  let lines := (mhb_header ++ ["1000;7;15;0;2;12345"])%list in
  forallb linebreak_free lines = true
  ∧ series (final (run (join_lines CRLF lines))) "MHB" 15
    = Some [(1000%Z, S754_finite false 8687021468732621 (-46))]
  ∧ devices (final (run (join_lines CRLF lines)))
    = devices (final (run (join_lines LF lines))).
Proof.
  intros lines.
  assert (forallb linebreak_free lines = true) as Hfree
    by (vm_compute; reflexivity).
  split; [exact Hfree|]. split; [vm_compute; reflexivity|].
  exact (proj1 (proj2 (proj2 (line_ending_is_irrelevant lines Hfree)))).
Defined.

(** ** The second pass only appends *)

Section Append.

Local Open Scope list_scope.
Implicit Types self : JetiTelemetryParser.




End Append.


(** ** The example at the end of the file *)

Section Example.


End Example.

